(** * probflow.callbacks: training-loop callbacks

    A shallow embedding of [src/probflow/callbacks.py] and the properties
    of its five callbacks: [LearningRateScheduler], [KLWeightScheduler],
    [MonitorMetric], [MonitorParameter] and [EarlyStopping].

    Conventions of the embedding.
    - A Python [int] is a [Z]; a Python [float] is an IEEE 754 binary64
      value, taken from [SpecFloat] together with its comparison.
    - A method of a callback is a computation in the monad [M]: it reads
      and assigns the fields of [self], calls into the world outside the
      object (the Trainer bound to [self.model], a user closure), may raise,
      and leaves behind the list of outside calls it made, each with what
      the call answered.  Assignments made before an exception stay made.
    - The Trainer is not part of this module of the repository: it is the
      interface [Trainer], over an arbitrary state [Env] of the outside
      world. *)

From Stdlib Require Import ZArith List String Bool Lia Sorted.
From Stdlib Require Import Floats.SpecFloat.
Import ListNotations.

Open Scope string_scope.
Open Scope list_scope.
Open Scope Z_scope.

Set Implicit Arguments.

(** ** Python values *)

(** Python floats. [inf] is [np.Inf], [nan] is [np.nan]. *)
Definition float : Set := spec_float.
Definition inf : float := S754_infinity false.
Definition nan : float := S754_nan.

(** [a < b] and [a == b] on floats. *)
Definition float_lt (a b : float) : bool := SFltb a b.
Definition float_eq (a b : float) : bool := SFeqb a b.

Definition is_nan (a : float) : bool :=
  match a with S754_nan => true | _ => false end.

(** The float nearest to an integer (exact for the small ones used below). *)
Definition float_of_Z (z : Z) : float := binary_normalize 53 1024 z 0 false.

(** First-order values that reach the constructors as arguments or come
    back from a schedule function. *)
Inductive pyval : Type :=
| PyNone
| PyBool (b : bool)
| PyInt (z : Z)
| PyFloat (f : float)
| PyStr (s : string).

(** An argument is either a callable, of behaviour [F], or a plain value. *)
Inductive pyarg (F : Type) : Type :=
| Callable (f : F)
| Value (v : pyval).

Arguments Callable {F} f.
Arguments Value {F} v.

(** [callable(a)]. *)
Definition callable {F : Type} (a : pyarg F) : bool :=
  match a with Callable _ => true | Value _ => false end.

(** [isinstance(v, float)]. *)
Definition isinstance_float (v : pyval) : bool :=
  match v with PyFloat _ => true | _ => false end.

(** [isinstance(v, int)]; [bool] is a subclass of [int]. *)
Definition isinstance_int (v : pyval) : bool :=
  match v with PyInt _ | PyBool _ => true | _ => false end.

(** The number an [int] (or [bool]) stands for in a comparison. *)
Definition int_value (v : pyval) : option Z :=
  match v with
  | PyInt z => Some z
  | PyBool b => Some (Z.b2z b)
  | _ => None
  end.

(** ** Exceptions *)

Inductive exn : Type :=
| TypeError (msg : string)
| ValueError (msg : string)
| Exception (msg : string).

Inductive result (A : Type) : Type :=
| Ok (a : A)
| Raise (e : exn).

Arguments Ok {A} a.
Arguments Raise {A} e.

Definition is_ok {A : Type} (r : result A) : bool :=
  match r with Ok _ => true | Raise _ => false end.

(** The errors the constructors raise on a bad argument. *)
Definition configuration_error {A : Type} (r : result A) : Prop :=
  match r with
  | Raise (TypeError _) | Raise (ValueError _) => True
  | _ => False
  end.

(** ** The monad of methods *)

Module Method.

Section Monad.
Variables E S : Type.

(** A method, run from state [S] (the object and the outside world):
    its outcome, the state it leaves, and the outside calls it made. *)
Definition M (A : Type) : Type := S -> result A * S * list E.

Definition ret {A : Type} (a : A) : M A := fun s => (Ok a, s, []).

Definition raise {A : Type} (e : exn) : M A := fun s => (Raise e, s, []).

Definition bind {A B : Type} (m : M A) (k : A -> M B) : M B :=
  fun s =>
    match m s with
    | (Ok a, s1, t1) =>
        match k a s1 with
        | (r, s2, t2) => (r, s2, t1 ++ t2)
        end
    | (Raise e, s1, t1) => (Raise e, s1, t1)
    end.
End Monad.

Arguments ret {E S A} a.
Arguments raise {E S A} e.
Arguments bind {E S A B} m k.

Section Object.
Variables E Self Env : Type.

(** Read [self]. *)
Definition get_self : M E (Self * Env) Self :=
  fun s => (Ok (fst s), s, []).

(** Assign fields of [self]. *)
Definition assign (f : Self -> Self) : M E (Self * Env) unit :=
  fun s => (Ok tt, (f (fst s), snd s), []).

(** Call into the outside world: [op] is what the callee does to the
    world and answers, [ev] the entry that records the call. *)
Definition call {A : Type} (op : Env -> result A * Env)
    (ev : result A -> E) : M E (Self * Env) A :=
  fun s =>
    match op (snd s) with
    | (r, env') => (r, (fst s, env'), [ev r])
    end.

(** A side effect of the method itself that cannot fail ([print]). *)
Definition emit (ev : E) : M E (Self * Env) unit :=
  fun s => (Ok tt, s, [ev]).
End Object.

Arguments get_self {E Self Env}.
Arguments assign {E Self Env} f.
Arguments call {E Self Env A} op ev.
Arguments emit {E Self Env} ev.

(** [n] successive calls of a method, as the epoch loop makes them; an
    exception ends the run. *)
Fixpoint calls {E S : Type} (n : nat) (m : M E S unit) : M E S unit :=
  match n with
  | O => ret tt
  | Datatypes.S n' => bind m (fun _ => calls n' m)
  end.

(** The outside calls of each of up to [n] successive calls of a method,
    call by call; the run ends with the call that raises. *)
Fixpoint traces {E S : Type} (n : nat) (m : M E S unit) (s : S)
  : list (list E) :=
  match n with
  | O => []
  | Datatypes.S n' =>
      match m s with
      | (Ok _, s', t) => t :: traces n' m s'
      | (Raise _, _, t) => [t]
      end
  end.

(** The outcome, the state and the outside calls of a run. *)
Definition outcome {A S E : Type} (run : result A * S * list E) : result A :=
  fst (fst run).

Definition state {A S E : Type} (run : result A * S * list E) : S :=
  snd (fst run).

Definition trace {A S E : Type} (run : result A * S * list E) : list E :=
  snd run.

End Method.

Import Method.

Declare Scope method_scope.
Delimit Scope method_scope with method.

Notation "x <- m ;; k" := (bind m (fun x => k))
  (at level 100, m at next level, right associativity) : method_scope.
Notation "m ;; k" := (bind m (fun _ => k))
  (at level 100, right associativity) : method_scope.

Open Scope method_scope.

(** ** The Trainer *)

(** What a callback calls on [self.model].  Every method acts on the state
    [Env] of the outside world and may raise. *)
Class Trainer (Env MetricFn DataGenerator Params Snapshot : Type) : Type := {
  set_learning_rate : pyval -> Env -> result unit * Env;
  set_kl_weight : pyval -> Env -> result unit * Env;
  metric : MetricFn -> DataGenerator -> Env -> result float * Env;
  posterior_mean : option Params -> Env -> result Snapshot * Env;
  stop_training : Env -> result unit * Env
}.

(** The calls a callback makes outside itself, with what they answered. *)
Inductive event (MetricFn DataGenerator Params Snapshot : Type) : Type :=
| EvSetLearningRate (lr : pyval) (r : result unit)
| EvSetKLWeight (w : pyval) (r : result unit)
| EvMetric (fn : MetricFn) (data : DataGenerator) (r : result float)
| EvPosteriorMean (params : option Params) (r : result Snapshot)
| EvStopTraining (r : result unit)
| EvMetricFn (r : result float)
| EvPrint (epoch : Z) (name : string) (value : float).

Arguments EvSetLearningRate {MetricFn DataGenerator Params Snapshot} lr r.
Arguments EvSetKLWeight {MetricFn DataGenerator Params Snapshot} w r.
Arguments EvMetric {MetricFn DataGenerator Params Snapshot} fn data r.
Arguments EvPosteriorMean {MetricFn DataGenerator Params Snapshot} params r.
Arguments EvStopTraining {MetricFn DataGenerator Params Snapshot} r.
Arguments EvMetricFn {MetricFn DataGenerator Params Snapshot} r.
Arguments EvPrint {MetricFn DataGenerator Params Snapshot} epoch name value.

(** ** EarlyStopping *)

Module EarlyStopping.

Section Class.
Context {Env MetricFn DataGenerator Params Snapshot : Type}.
Context {model : Trainer Env MetricFn DataGenerator Params Snapshot}.

Local Abbreviation event := (event MetricFn DataGenerator Params Snapshot).

(** The accessor: a closure without arguments that reads the world. *)
Definition accessor : Type := Env -> result float * Env.

(** [patience] holds the number that the [int] accepted by the constructor
    stands for. *)
Record t : Type := Build {
  metric_fn : accessor;
  patience : Z;
  best : float;
  count : Z
}.

Definition set_best (v : float) (self : t) : t :=
  Build (metric_fn self) (patience self) v (count self).

Definition set_count (c : Z) (self : t) : t :=
  Build (metric_fn self) (patience self) (best self) c.

(** [__init__(self, metric_fn, patience=0)].  Once [isinstance] has
    accepted [patience], it has a number to compare with 0. *)
Definition init (metric_fn : pyarg accessor) (patience : pyval) : result t :=
  if negb (isinstance_int patience) then
    Raise (TypeError "patience must be an int")
  else
    match int_value patience with
    | None => Raise (TypeError "patience must be an int")
    | Some p =>
        if p <? 0 then
          Raise (ValueError "patience must be non-negative")
        else
          match metric_fn with
          | Value _ => Raise (TypeError "metric_fn must be a callable")
          | Callable f => Ok (Build f p inf 0)
          end
    end.

(** [on_epoch_end(self)] *)
Definition on_epoch_end : M event (t * Env) unit :=
  self <- get_self ;;
  metric <- call (metric_fn self) EvMetricFn ;;
  self <- get_self ;;
  if float_lt metric (best self) then
    assign (set_best metric) ;;
    assign (set_count 0)
  else
    assign (fun self => set_count (count self + 1) self) ;;
    self <- get_self ;;
    if count self >? patience self then
      call stop_training EvStopTraining
    else
      ret tt.
End Class.

Arguments accessor : clear implicits.
Arguments t : clear implicits.

End EarlyStopping.

(** ** LearningRateScheduler *)

(** A schedule: the callable [fn], from the epoch to a value.  It may
    raise; what it answers depends on the epoch alone. *)
Definition schedule : Type := Z -> result pyval.

(** The schedule of a function that returns for every epoch. *)
Definition pure_schedule (f : Z -> pyval) : schedule := fun e => Ok (f e).

Module LearningRateScheduler.

Section Class.
Context {Env MetricFn DataGenerator Params Snapshot : Type}.
Context {model : Trainer Env MetricFn DataGenerator Params Snapshot}.

Local Abbreviation event := (event MetricFn DataGenerator Params Snapshot).

Record t : Type := Build {
  fn : schedule;
  current_epoch : Z;
  current_lr : pyval;
  epochs : list Z;
  learning_rate : list pyval
}.

Definition set_current_epoch (e : Z) (self : t) : t :=
  Build (fn self) e (current_lr self) (epochs self) (learning_rate self).

Definition set_current_lr (v : pyval) (self : t) : t :=
  Build (fn self) (current_epoch self) v (epochs self) (learning_rate self).

Definition set_epochs (l : list Z) (self : t) : t :=
  Build (fn self) (current_epoch self) (current_lr self) l
    (learning_rate self).

Definition set_learning_rate_list (l : list pyval) (self : t) : t :=
  Build (fn self) (current_epoch self) (current_lr self) (epochs self) l.

(** [__init__(self, fn)] *)
Definition init (fn : pyarg schedule) : result t :=
  match fn with
  | Value _ => Raise (TypeError "fn must be a callable")
  | Callable f =>
      match f 1 with
      | Raise e => Raise e
      | Ok probe =>
          if negb (isinstance_float probe) then
            Raise (TypeError "fn must return a float")
          else
            Ok (Build f 0 (PyInt 0) [] [])
      end
  end.

(** [on_epoch_end(self)] *)
Definition on_epoch_end : M event (t * Env) unit :=
  assign (fun self => set_current_epoch (current_epoch self + 1) self) ;;
  self <- get_self ;;
  match fn self (current_epoch self) with
  | Raise e => raise e
  | Ok lr =>
      assign (set_current_lr lr) ;;
      self <- get_self ;;
      call (set_learning_rate (current_lr self))
           (EvSetLearningRate (current_lr self)) ;;
      assign (fun self =>
                set_epochs (epochs self ++ [current_epoch self]) self) ;;
      assign (fun self =>
                set_learning_rate_list
                  (learning_rate self ++ [current_lr self]) self)
  end.
End Class.

Arguments t : clear implicits.

End LearningRateScheduler.

(** ** KLWeightScheduler *)

Module KLWeightScheduler.

Section Class.
Context {Env MetricFn DataGenerator Params Snapshot : Type}.
Context {model : Trainer Env MetricFn DataGenerator Params Snapshot}.

Local Abbreviation event := (event MetricFn DataGenerator Params Snapshot).

Record t : Type := Build {
  fn : schedule;
  current_epoch : Z;
  current_w : pyval;
  epochs : list Z;
  kl_weights : list pyval
}.

Definition set_current_epoch (e : Z) (self : t) : t :=
  Build (fn self) e (current_w self) (epochs self) (kl_weights self).

Definition set_current_w (v : pyval) (self : t) : t :=
  Build (fn self) (current_epoch self) v (epochs self) (kl_weights self).

Definition set_epochs (l : list Z) (self : t) : t :=
  Build (fn self) (current_epoch self) (current_w self) l (kl_weights self).

Definition set_kl_weights (l : list pyval) (self : t) : t :=
  Build (fn self) (current_epoch self) (current_w self) (epochs self) l.

(** [__init__(self, fn)] *)
Definition init (fn : pyarg schedule) : result t :=
  match fn with
  | Value _ => Raise (TypeError "fn must be a callable")
  | Callable f =>
      match f 1 with
      | Raise e => Raise e
      | Ok probe =>
          if negb (isinstance_float probe) then
            Raise (TypeError "fn must return a float")
          else
            Ok (Build f 0 (PyInt 0) [] [])
      end
  end.

(** [on_epoch_end(self)] *)
Definition on_epoch_end : M event (t * Env) unit :=
  assign (fun self => set_current_epoch (current_epoch self + 1) self) ;;
  self <- get_self ;;
  match fn self (current_epoch self) with
  | Raise e => raise e
  | Ok w =>
      assign (set_current_w w) ;;
      self <- get_self ;;
      call (set_kl_weight (current_w self))
           (EvSetKLWeight (current_w self)) ;;
      assign (fun self =>
                set_epochs (epochs self ++ [current_epoch self]) self) ;;
      assign (fun self =>
                set_kl_weights (kl_weights self ++ [current_w self]) self)
  end.
End Class.

Arguments t : clear implicits.

End KLWeightScheduler.

(** ** MonitorMetric *)

(** What [probflow.utils.metrics] and [probflow.data] provide to the
    constructor: the resolution of a metric to a scoring function, the
    wrapping of arrays into a generator, and the [__name__] of a scoring
    function.  Neither is part of this module. *)
Class Resolver (Metric Data MetricFn DataGenerator : Type) : Type := {
  get_metric_fn : Metric -> result MetricFn;
  make_generator : Data -> option Data -> result DataGenerator;
  fn_name : MetricFn -> string
}.

Module MonitorMetric.

Section Class.
Context {Env Metric Data MetricFn DataGenerator Params Snapshot : Type}.
Context {model : Trainer Env MetricFn DataGenerator Params Snapshot}.
Context {resolver : Resolver Metric Data MetricFn DataGenerator}.

Local Abbreviation event := (event MetricFn DataGenerator Params Snapshot).

Record t : Type := Build {
  metric_fn : MetricFn;
  data : DataGenerator;
  current_metric : float;
  current_epoch : Z;
  metrics : list float;
  epochs : list Z;
  verbose : bool
}.

Definition set_current_metric (v : float) (self : t) : t :=
  Build (metric_fn self) (data self) v (current_epoch self) (metrics self)
    (epochs self) (verbose self).

Definition set_current_epoch (e : Z) (self : t) : t :=
  Build (metric_fn self) (data self) (current_metric self) e (metrics self)
    (epochs self) (verbose self).

Definition set_metrics (l : list float) (self : t) : t :=
  Build (metric_fn self) (data self) (current_metric self)
    (current_epoch self) l (epochs self) (verbose self).

Definition set_epochs (l : list Z) (self : t) : t :=
  Build (metric_fn self) (data self) (current_metric self)
    (current_epoch self) (metrics self) l (verbose self).

(** [__init__(self, metric, x, y=None, verbose=True)] *)
Definition init (metric : Metric) (x : Data) (y : option Data)
    (verbose : bool) : result t :=
  match get_metric_fn metric with
  | Raise e => Raise e
  | Ok f =>
      match make_generator x y with
      | Raise e => Raise e
      | Ok d => Ok (Build f d nan 0 [] [] verbose)
      end
  end.

(** [on_epoch_end(self)] *)
Definition on_epoch_end : M event (t * Env) unit :=
  self <- get_self ;;
  m <- call (metric (metric_fn self) (data self))
            (EvMetric (metric_fn self) (data self)) ;;
  assign (set_current_metric m) ;;
  assign (fun self => set_current_epoch (current_epoch self + 1) self) ;;
  assign (fun self =>
            set_metrics (metrics self ++ [current_metric self]) self) ;;
  assign (fun self => set_epochs (epochs self ++ [current_epoch self]) self) ;;
  self <- get_self ;;
  if verbose self then
    emit (EvPrint (current_epoch self) (fn_name (metric_fn self))
            (current_metric self))
  else
    ret tt.
End Class.

Arguments t : clear implicits.

End MonitorMetric.

(** ** MonitorParameter *)

Module MonitorParameter.

Section Class.
Context {Env Data MetricFn DataGenerator Params Snapshot : Type}.
Context {model : Trainer Env MetricFn DataGenerator Params Snapshot}.

Local Abbreviation event := (event MetricFn DataGenerator Params Snapshot).

(** [current_params] and the entries of [parameter_values] are [None]
    or a snapshot the Trainer returned. *)
Record t : Type := Build {
  params : option Params;
  current_params : option Snapshot;
  current_epoch : Z;
  parameter_values : list (option Snapshot);
  epochs : list Z
}.

Definition set_current_params (v : option Snapshot) (self : t) : t :=
  Build (params self) v (current_epoch self) (parameter_values self)
    (epochs self).

Definition set_current_epoch (e : Z) (self : t) : t :=
  Build (params self) (current_params self) e (parameter_values self)
    (epochs self).

Definition set_parameter_values (l : list (option Snapshot)) (self : t)
  : t :=
  Build (params self) (current_params self) (current_epoch self) l
    (epochs self).

Definition set_epochs (l : list Z) (self : t) : t :=
  Build (params self) (current_params self) (current_epoch self)
    (parameter_values self) l.

(** [__init__(self, x, y=None, params=None)] *)
Definition init (x : Data) (y : option Data) (params : option Params) : t :=
  Build params None 0 [] [].

(** [on_epoch_end(self)] *)
Definition on_epoch_end : M event (t * Env) unit :=
  self <- get_self ;;
  p <- call (posterior_mean (params self))
            (EvPosteriorMean (params self)) ;;
  assign (set_current_params (Some p)) ;;
  assign (fun self => set_current_epoch (current_epoch self + 1) self) ;;
  assign (fun self =>
            set_parameter_values
              (parameter_values self ++ [current_params self]) self) ;;
  assign (fun self => set_epochs (epochs self ++ [current_epoch self]) self).
End Class.

Arguments t : clear implicits.

(** The reading of the specification under which the object keeps the
    data it is constructed with: the data can be read back from it. *)
Definition keeps_data (Data Params Snapshot : Type) : Prop :=
  exists recover : t Params Snapshot -> Data * option Data,
    forall (x : Data) (y : option Data) (params : option Params),
      recover (init x y params) = (x, y).

End MonitorParameter.

(** ** Reading the outside calls of a run *)

Section Observation.
Context {MetricFn DataGenerator Params Snapshot : Type}.

Local Abbreviation event := (event MetricFn DataGenerator Params Snapshot).

Definition is_stop (e : event) : bool :=
  match e with EvStopTraining _ => true | _ => false end.

(** Whether a call of [on_epoch_end] called [stop_training]. *)
Definition signaled (t : list event) : bool := existsb is_stop t.

(** The value the accessor returned to a call of [on_epoch_end]. *)
Definition observed (t : list event) : option float :=
  match t with
  | EvMetricFn (Ok v) :: _ => Some v
  | _ => None
  end.

(** Of a run, call by call: the value observed and whether stop was
    signaled, for the calls whose accessor returned. *)
Definition observations (ts : list (list event)) : list (float * bool) :=
  flat_map (fun t => match observed t with
                     | Some v => [(v, signaled t)]
                     | None => []
                     end) ts.

(** The values the Trainer's mutators were called with. *)
Definition learning_rates_set (t : list event) : list pyval :=
  flat_map (fun e => match e with
                     | EvSetLearningRate v _ => [v]
                     | _ => []
                     end) t.

Definition kl_weights_set (t : list event) : list pyval :=
  flat_map (fun e => match e with
                     | EvSetKLWeight v _ => [v]
                     | _ => []
                     end) t.

(** The snapshots [posterior_mean] returned. *)
Definition snapshots_returned (t : list event) : list Snapshot :=
  flat_map (fun e => match e with
                     | EvPosteriorMean _ (Ok v) => [v]
                     | _ => []
                     end) t.
End Observation.

(** ** The stopping rule in the words of the specification *)

Module StoppingRule.

(** The best value seen so far: positive infinity at first, then every
    value strictly below it takes its place. *)
Definition best_seen (history : list float) : float :=
  fold_left (fun b v => if float_lt v b then v else b) history inf.

(** A value improves when it is strictly below the best seen before it. *)
Definition improves (history : list float) (v : float) : bool :=
  float_lt v (best_seen history).

(** The consecutive non-improving calls a run ends with, the newest value
    first. *)
Fixpoint streak (newest_first : list float) : nat :=
  match newest_first with
  | [] => O
  | v :: older => if improves (rev older) v then O else S (streak older)
  end.

Definition non_improving_count (history : list float) : nat :=
  streak (rev history).

(** Stop is signaled on a call when its value does not improve and the
    resulting count of consecutive non-improving calls exceeds patience. *)
Definition stop (patience : Z) (history : list float) (v : float) : bool :=
  negb (improves history v)
  && (Z.of_nat (non_improving_count (history ++ [v])) >? patience).

Fixpoint signals_from (patience : Z) (history vs : list float) : list bool :=
  match vs with
  | [] => []
  | v :: rest => stop patience history v
                 :: signals_from patience (history ++ [v]) rest
  end.

Definition signals (patience : Z) (vs : list float) : list bool :=
  signals_from patience [] vs.

(** The fields of an [EarlyStopping] agree with the values observed so
    far. *)
Definition tracks {Env : Type} (history : list float)
    (self : EarlyStopping.t Env) : Prop :=
  EarlyStopping.best self = best_seen history
  /\ EarlyStopping.count self = Z.of_nat (non_improving_count history).

End StoppingRule.

(** ** Epoch numbers *)

(** The epochs [k+1, ..., k+n]. *)
Definition epochs_between (k : Z) (n : nat) : list Z :=
  map (fun i => k + Z.of_nat i) (seq 1 n).

(** The epochs [1, ..., n]. *)
Definition epochs_upto (n : nat) : list Z := map Z.of_nat (seq 1 n).

(** ** A scripted Trainer *)

(** A world for concrete runs: [feed] holds the values the accessor and the
    metric computation yield next, [healthy] tells whether the Trainer's
    methods return or raise. *)
Module Script.

Record env : Type := Build { feed : list float; healthy : bool }.

Definition next_value (e : env) : result float * env :=
  match feed e with
  | [] => (Raise (Exception "nothing to read"), e)
  | v :: rest => (Ok v, Build rest (healthy e))
  end.

Definition mutate (e : env) : result unit * env :=
  if healthy e then (Ok tt, e) else (Raise (Exception "trainer failed"), e).

Definition compute (e : env) : result float * env :=
  if healthy e then next_value e
  else (Raise (Exception "trainer failed"), e).

Definition means (p : option (list string)) (e : env)
  : result (list (string * float)) * env :=
  if healthy e then
    (Ok (map (fun v => ("w", v)) (firstn 1 (feed e))), Build (tl (feed e)) true)
  else (Raise (Exception "trainer failed"), e).

#[global] Instance trainer
  : Trainer env string (list Z) (list string) (list (string * float)) := {
  set_learning_rate := fun _ => mutate;
  set_kl_weight := fun _ => mutate;
  metric := fun _ _ => compute;
  posterior_mean := means;
  stop_training := mutate
}.

#[global] Instance resolver : Resolver string (list Z) string (list Z) := {
  get_metric_fn := fun name =>
    if String.eqb name "mse" then Ok name
    else Raise (ValueError "unknown metric");
  make_generator := fun x _ => Ok x;
  fn_name := fun name => name
}.

Definition world (vs : list Z) : env := Build (map float_of_Z vs) true.

(** The object [EarlyStopping(next_value, patience)] builds. *)
Definition stopper (patience : Z) : EarlyStopping.t env :=
  EarlyStopping.Build next_value patience inf 0.

(** A Trainer without state whose methods always return. *)
Definition steady
  : Trainer unit string (list Z) (list string) (list (string * float)) := {|
  set_learning_rate := fun _ w => (Ok tt, w);
  set_kl_weight := fun _ w => (Ok tt, w);
  metric := fun _ _ w => (Ok nan, w);
  posterior_mean := fun _ w => (Ok [], w);
  stop_training := fun w => (Ok tt, w)
|}.

(** A schedule function that halves after the first epoch, and a schedule
    that raises from the third epoch on. *)
Definition halving (e : Z) : pyval :=
  PyFloat (float_of_Z (if e <=? 1 then 8 else 4)).

Definition failing_at_3 : schedule :=
  fun e => if e <? 3 then Ok (PyFloat (float_of_Z e))
           else Raise (Exception "schedule failed").

End Script.

(** ** Callback *)

(** The base class.  Its two hooks do nothing; the five callbacks inherit
    [on_train_end] as it is and override [on_epoch_end]. *)
Module Callback.

Section Class.
Context {E Self Env : Type}.

(** [on_epoch_end(self)] *)
Definition on_epoch_end : M E (Self * Env) unit := ret tt.

(** [on_train_end(self)] *)
Definition on_train_end : M E (Self * Env) unit := ret tt.
End Class.

End Callback.

(** ** Calls that go on after an exception *)

(** The state after [n] successive calls of a method by a caller that
    catches what a call raises and goes on. *)
Fixpoint attempts {E S : Type} (n : nat) (m : M E S unit) (s : S) : S :=
  match n with
  | O => s
  | Datatypes.S n' => attempts n' m (state (m s))
  end.

(** ** Reading the calls of the monitors *)

Section Reading.
Context {MetricFn DataGenerator Params Snapshot : Type}.

Local Abbreviation event := (event MetricFn DataGenerator Params Snapshot).

(** The values the Trainer's [metric] returned. *)
Definition metrics_returned (t : list event) : list float :=
  flat_map (fun e => match e with
                     | EvMetric _ _ (Ok v) => [v]
                     | _ => []
                     end) t.

(** The arguments the Trainer's [metric] was called with. *)
Definition metric_calls (t : list event) : list (MetricFn * DataGenerator) :=
  flat_map (fun e => match e with
                     | EvMetric f d _ => [(f, d)]
                     | _ => []
                     end) t.

(** The lines printed: epoch, name and value. *)
Definition printed (t : list event) : list (Z * string * float) :=
  flat_map (fun e => match e with
                     | EvPrint epoch name v => [(epoch, name, v)]
                     | _ => []
                     end) t.

(** What the accessor of an [EarlyStopping] answered, call by call. *)
Definition accessed (t : list event) : list (result float) :=
  flat_map (fun e => match e with
                     | EvMetricFn r => [r]
                     | _ => []
                     end) t.

(** The lines a verbose [MonitorMetric] prints for a metric of this name,
    these epochs and these values. *)
Definition lines (name : string) (es : list Z) (vs : list float)
  : list (Z * string * float) :=
  map (fun p => (fst p, name, snd p)) (combine es vs).

(** The arguments the Trainer's [posterior_mean] was called with. *)
Definition posterior_mean_calls (t : list event) : list (option Params) :=
  flat_map (fun e => match e with
                     | EvPosteriorMean p _ => [p]
                     | _ => []
                     end) t.
End Reading.

(** ** EarlyStopping on a MonitorMetric *)

(** The wiring of the example in the docstring of [EarlyStopping]:
    [monitor_mae = MonitorMetric(...)] and
    [early_stopping = EarlyStopping(lambda: monitor_mae.current_metric)].
    The world outside the [EarlyStopping] then holds the monitor next to
    the world of the Trainer. *)
Module Wiring.

Section Pair.
Context {Env Metric Data MetricFn DataGenerator Params Snapshot : Type}.
Context {model : Trainer Env MetricFn DataGenerator Params Snapshot}.
Context {resolver : Resolver Metric Data MetricFn DataGenerator}.

Local Abbreviation event := (event MetricFn DataGenerator Params Snapshot).

Definition world : Type := MonitorMetric.t MetricFn DataGenerator * Env.

(** [lambda: monitor_mae.current_metric] *)
Definition current_metric_of : EarlyStopping.accessor world :=
  fun w => (Ok (MonitorMetric.current_metric (fst w)), w).

(** A method of the Trainer, which leaves the monitor alone. *)
Definition beside {A : Type} (op : Env -> result A * Env)
  : world -> result A * world :=
  fun w =>
    match op (snd w) with
    | (r, env') => (r, (fst w, env'))
    end.

Definition model_beside
  : Trainer world MetricFn DataGenerator Params Snapshot := {|
  set_learning_rate := fun v => beside (set_learning_rate v);
  set_kl_weight := fun v => beside (set_kl_weight v);
  metric := fun f d => beside (metric f d);
  posterior_mean := fun p => beside (posterior_mean p);
  stop_training := beside stop_training
|}.

(** [monitor_mae.on_epoch_end()], which leaves the [EarlyStopping]
    alone. *)
Definition monitor_on_epoch_end
  : M event (EarlyStopping.t world * world) unit :=
  fun s =>
    match MonitorMetric.on_epoch_end (snd s) with
    | (r, w', t) => (r, (fst s, w'), t)
    end.

(** [early_stopping.on_epoch_end()] *)
Definition stopping_on_epoch_end
  : M event (EarlyStopping.t world * world) unit :=
  EarlyStopping.on_epoch_end (model := model_beside).

(** Modelled from the spec: the Trainer's epoch loop, which is not part of
    this module, calls [on_epoch_end] on every registered callback in
    registration order.  This is the end of an epoch with
    [callbacks=[monitor_mae, early_stopping]]: the monitor's call, and
    when it returns the stopper's. *)
Definition epoch_end : M event (EarlyStopping.t world * world) unit :=
  monitor_on_epoch_end ;; stopping_on_epoch_end.

(** The same with [callbacks=[early_stopping, monitor_mae]]. *)
Definition epoch_end_reversed
  : M event (EarlyStopping.t world * world) unit :=
  stopping_on_epoch_end ;; monitor_on_epoch_end.
End Pair.

End Wiring.

(** * Properties *)

(** ** Floats *)

Lemma float_lt_irrefl (a : float) : float_lt a a = false.
Proof.
  unfold float_lt, SFltb.
  destruct a as [s | s | | s m e]; simpl; try reflexivity.
  - destruct s; reflexivity.
  - rewrite Z.compare_refl.
    change (PosDef.Pos.compare_cont Eq m m) with (Pos.compare m m).
    rewrite Pos.compare_refl. destruct s; reflexivity.
Qed.

Lemma float_eq_not_lt (a b : float) :
  float_eq a b = true -> float_lt a b = false.
Proof.
  unfold float_eq, float_lt, SFeqb, SFltb.
  destruct (SFcompare a b) as [[ | | ] | ]; intros H; try reflexivity;
    discriminate H.
Qed.

(** ** One call of EarlyStopping.on_epoch_end *)

Section EarlyStoppingStep.
Context {Env MetricFn DataGenerator Params Snapshot : Type}.
Context {model : Trainer Env MetricFn DataGenerator Params Snapshot}.

Import EarlyStopping.

Variables (self : t Env) (env : Env).

Ltac run_method :=
  unfold on_epoch_end, bind, call, get_self, assign, ret; simpl.

Lemma on_epoch_end_raises (e : exn) (env1 : Env) :
  metric_fn self env = (Raise e, env1) ->
  on_epoch_end (self, env) = (Raise e, (self, env1), [EvMetricFn (Raise e)]).
Proof.
  intros Hacc. run_method. rewrite Hacc. reflexivity.
Qed.

Lemma on_epoch_end_improves (v : float) (env1 : Env) :
  metric_fn self env = (Ok v, env1) ->
  float_lt v (best self) = true ->
  on_epoch_end (self, env)
  = (Ok tt, (Build (metric_fn self) (patience self) v 0, env1),
     [EvMetricFn (Ok v)]).
Proof.
  intros Hacc Hlt. run_method. rewrite Hacc. simpl. rewrite Hlt.
  reflexivity.
Qed.

Lemma on_epoch_end_tolerates (v : float) (env1 : Env) :
  metric_fn self env = (Ok v, env1) ->
  float_lt v (best self) = false ->
  (count self + 1 >? patience self) = false ->
  on_epoch_end (self, env)
  = (Ok tt,
     (Build (metric_fn self) (patience self) (best self) (count self + 1),
      env1),
     [EvMetricFn (Ok v)]).
Proof.
  intros Hacc Hlt Hgt. run_method. rewrite Hacc. simpl. rewrite Hlt.
  simpl. rewrite Hgt. reflexivity.
Qed.

Lemma on_epoch_end_stops (v : float) (env1 env2 : Env) (r : result unit) :
  metric_fn self env = (Ok v, env1) ->
  float_lt v (best self) = false ->
  (count self + 1 >? patience self) = true ->
  stop_training env1 = (r, env2) ->
  on_epoch_end (self, env)
  = (r,
     (Build (metric_fn self) (patience self) (best self) (count self + 1),
      env2),
     [EvMetricFn (Ok v); EvStopTraining r]).
Proof.
  intros Hacc Hlt Hgt Hstop. run_method. rewrite Hacc. simpl. rewrite Hlt.
  simpl. rewrite Hgt. simpl. rewrite Hstop. reflexivity.
Qed.
End EarlyStoppingStep.

(** ** A run of EarlyStopping follows the stopping rule *)

Section EarlyStoppingRun.
Context {Env MetricFn DataGenerator Params Snapshot : Type}.
Context {model : Trainer Env MetricFn DataGenerator Params Snapshot}.

Import EarlyStopping StoppingRule.

Lemma best_seen_snoc (history : list float) (v : float) :
  best_seen (history ++ [v])
  = if improves history v then v else best_seen history.
Proof.
  unfold best_seen, improves. rewrite fold_left_app. reflexivity.
Qed.

Lemma non_improving_count_snoc (history : list float) (v : float) :
  non_improving_count (history ++ [v])
  = if improves history v then O else S (non_improving_count history).
Proof.
  unfold non_improving_count. rewrite rev_app_distr. simpl.
  rewrite rev_involutive. reflexivity.
Qed.

Lemma tracks_init (f : accessor Env) (p : Z) : tracks [] (Build f p inf 0).
Proof. split; reflexivity. Qed.

Lemma run_follows_rule (n : nat) :
  forall (self : t Env) (env : Env) (history : list float),
    tracks history self ->
    let obs := observations (traces n on_epoch_end (self, env)) in
    map snd obs = signals_from (patience self) history (map fst obs).
Proof.
  induction n as [ | n IH]; intros self env history [Hbest Hcount];
    [reflexivity | ].
  cbn zeta. cbn [traces].
  destruct (metric_fn self env) as [[v | e] env1] eqn:Hacc.
  2:{ rewrite (on_epoch_end_raises _ _ Hacc). reflexivity. }
  assert (Himp : improves history v = float_lt v (best self))
    by (unfold improves; rewrite Hbest; reflexivity).
  destruct (float_lt v (best self)) eqn:Hlt.
  - rewrite (on_epoch_end_improves _ _ Hacc Hlt).
    cbn [observations flat_map observed app map fst snd signals_from].
    f_equal.
    + unfold stop. rewrite Himp. reflexivity.
    + apply (IH (Build (metric_fn self) (patience self) v 0)).
      split; cbn [best count].
      * rewrite best_seen_snoc, Himp. reflexivity.
      * rewrite non_improving_count_snoc, Himp. reflexivity.
  - assert (Hinv : tracks (history ++ [v])
              (Build (metric_fn self) (patience self) (best self)
                 (count self + 1))).
    { split; cbn [best count].
      - rewrite best_seen_snoc, Himp. exact Hbest.
      - rewrite non_improving_count_snoc, Himp, Hcount. lia. }
    assert (Hstop : stop (patience self) history v
                    = (count self + 1 >? patience self)).
    { unfold stop.
      rewrite Himp, non_improving_count_snoc, Himp, Hcount. simpl negb.
      rewrite Nat2Z.inj_succ. unfold Z.succ. reflexivity. }
    destruct (count self + 1 >? patience self) eqn:Hgt.
    + destruct (stop_training env1) as [r env2] eqn:Hcall.
      rewrite (on_epoch_end_stops _ _ Hacc Hlt Hgt Hcall).
      destruct r as [[] | e].
      * cbn [observations flat_map observed app map fst snd signals_from].
        f_equal; [symmetry; exact Hstop | ].
        exact (IH _ env2 _ Hinv).
      * cbn. rewrite Hstop. reflexivity.
    + rewrite (on_epoch_end_tolerates _ _ Hacc Hlt Hgt).
      cbn [observations flat_map observed app map fst snd signals_from].
      f_equal; [symmetry; exact Hstop | ].
      exact (IH _ env1 _ Hinv).
Qed.

(** A run whose calls all return has an observation for each call. *)
Lemma run_observes_every_call (n : nat) :
  forall (self : t Env) (env : Env),
    is_ok (outcome (calls n on_epoch_end (self, env))) = true ->
    List.length (observations (traces n on_epoch_end (self, env))) = n.
Proof.
  induction n as [ | n IH]; intros self env Hok; [reflexivity | ].
  cbn [calls traces] in *. unfold bind in Hok.
  destruct (metric_fn self env) as [[v | e] env1] eqn:Hacc.
  2:{ rewrite (on_epoch_end_raises _ _ Hacc) in Hok. discriminate Hok. }
  destruct (float_lt v (best self)) eqn:Hlt.
  - rewrite (on_epoch_end_improves _ _ Hacc Hlt) in *.
    cbn [observations flat_map observed app List.length]. f_equal.
    apply IH.
    destruct (calls n on_epoch_end _) as [[r s2] t2]. exact Hok.
  - destruct (count self + 1 >? patience self) eqn:Hgt.
    + destruct (stop_training env1) as [r env2] eqn:Hcall.
      rewrite (on_epoch_end_stops _ _ Hacc Hlt Hgt Hcall) in *.
      destruct r as [[] | e]; [ | discriminate Hok].
      cbn [observations flat_map observed app List.length]. f_equal.
      apply IH.
      destruct (calls n on_epoch_end _) as [[r s2] t2]. exact Hok.
    + rewrite (on_epoch_end_tolerates _ _ Hacc Hlt Hgt) in *.
      cbn [observations flat_map observed app List.length]. f_equal.
      apply IH.
      destruct (calls n on_epoch_end _) as [[r s2] t2]. exact Hok.
Qed.
End EarlyStoppingRun.

(** ** EarlyStopping: the claims *)

Lemma early_stopping_init_ok {Env : Type} (f : EarlyStopping.accessor Env)
    (p : pyval) (self : EarlyStopping.t Env) :
  EarlyStopping.init (Callable f) p = Ok self ->
  exists z : Z,
    int_value p = Some z /\ 0 <= z /\ self = EarlyStopping.Build f z inf 0.
Proof.
  unfold EarlyStopping.init.
  destruct (isinstance_int p); simpl; [ | discriminate].
  destruct (int_value p) as [z | ]; [ | discriminate].
  destruct (z <? 0) eqn:Hneg; [discriminate | ].
  intros H. injection H as <-. exists z.
  apply Z.ltb_ge in Hneg. repeat split. exact Hneg.
Qed.

(** C1, as amended.  Take an [EarlyStopping] as its constructor builds it
    and any run of [on_epoch_end] calls, against any Trainer and any
    accessor.  Call by call, stop is signaled exactly when the rule of the
    specification says so for the values the accessor returned: the value
    is not strictly below the best seen so far and the count of
    consecutive non-improving calls it brings exceeds patience; and when
    all [n] calls return, each of them is accounted for.  Concretely, with
    patience 0 and the values 5.0, 5.0 the first call only sets [best] and
    the second signals stop.  With patience 1 and the values 5.0, 4.0, 4.0
    the second call improves ([count] is 0 after it), the third brings
    [count] to 1 and no call signals stop; with 5.0, 5.0, 5.0 instead,
    [count] is 1 after the second call, without a signal, and 2 after the
    third, which signals stop. *)
Theorem early_stopping_stop_rule :
  (forall (Env MetricFn DataGenerator Params Snapshot : Type)
          (model : Trainer Env MetricFn DataGenerator Params Snapshot)
          (f : EarlyStopping.accessor Env) (p : pyval)
          (self : EarlyStopping.t Env) (env : Env) (n : nat),
      EarlyStopping.init (Callable f) p = Ok self ->
      let run := traces n EarlyStopping.on_epoch_end (self, env) in
      map snd (observations run)
      = StoppingRule.signals (EarlyStopping.patience self)
          (map fst (observations run))
      /\ (is_ok (outcome (calls n EarlyStopping.on_epoch_end (self, env)))
          = true ->
          List.length (observations run) = n))
  /\ (EarlyStopping.init (Callable Script.next_value) (PyInt 0)
      = Ok (Script.stopper 0)
      /\ (let run := calls 1 EarlyStopping.on_epoch_end
                       (Script.stopper 0, Script.world [5; 5]) in
          EarlyStopping.best (fst (state run)) = float_of_Z 5
          /\ EarlyStopping.count (fst (state run)) = 0
          /\ signaled (trace run) = false)
      /\ map signaled (traces 2 EarlyStopping.on_epoch_end
                         (Script.stopper 0, Script.world [5; 5]))
         = [false; true])
  /\ (EarlyStopping.init (Callable Script.next_value) (PyInt 1)
      = Ok (Script.stopper 1)
      /\ EarlyStopping.count
           (fst (state (calls 2 EarlyStopping.on_epoch_end
                          (Script.stopper 1, Script.world [5; 4; 4])))) = 0
      /\ EarlyStopping.count
           (fst (state (calls 3 EarlyStopping.on_epoch_end
                          (Script.stopper 1, Script.world [5; 4; 4])))) = 1
      /\ map signaled (traces 3 EarlyStopping.on_epoch_end
                         (Script.stopper 1, Script.world [5; 4; 4]))
         = [false; false; false])
  /\ (EarlyStopping.count
        (fst (state (calls 2 EarlyStopping.on_epoch_end
                       (Script.stopper 1, Script.world [5; 5; 5])))) = 1
      /\ EarlyStopping.count
           (fst (state (calls 3 EarlyStopping.on_epoch_end
                          (Script.stopper 1, Script.world [5; 5; 5])))) = 2
      /\ map signaled (traces 3 EarlyStopping.on_epoch_end
                         (Script.stopper 1, Script.world [5; 5; 5]))
         = [false; false; true]).
Proof.
  split; [ | repeat split; vm_compute; reflexivity].
  intros Env MetricFn DataGenerator Params Snapshot model f p self env n Hinit.
  destruct (early_stopping_init_ok _ _ Hinit) as (z & _ & _ & ->).
  split.
  - apply run_follows_rule. apply tracks_init.
  - apply run_observes_every_call.
Qed.

Lemma early_stopping_stop_rule_witness :
  EarlyStopping.init (Callable Script.next_value) (PyInt 0)
  = Ok (Script.stopper 0)
  /\ (let run := traces 2 EarlyStopping.on_epoch_end
                   (Script.stopper 0, Script.world [5; 5]) in
      map snd (observations run)
      = StoppingRule.signals (EarlyStopping.patience (Script.stopper 0))
          (map fst (observations run))
      /\ (is_ok (outcome (calls 2 EarlyStopping.on_epoch_end
                            (Script.stopper 0, Script.world [5; 5])))
          = true ->
          List.length (observations run) = 2%nat)).
Proof.
  split; [reflexivity | ].
  apply (proj1 early_stopping_stop_rule _ _ _ _ _ _
           Script.next_value (PyInt 0)).
  reflexivity.
Defined.

(** C1 as it stands fails on its last scenario: with patience 1 and the
    values 5.0, 4.0, 4.0 the second value is an improvement, so [count] is
    not 1 after the second call, and the third call does not signal
    stop. *)
Lemma early_stopping_scenario_counterexample :
  EarlyStopping.init (Callable Script.next_value) (PyInt 1)
  = Ok (Script.stopper 1)
  /\ EarlyStopping.count
       (fst (state (calls 2 EarlyStopping.on_epoch_end
                      (Script.stopper 1, Script.world [5; 4; 4])))) <> 1
  /\ nth 2 (map signaled (traces 3 EarlyStopping.on_epoch_end
                            (Script.stopper 1, Script.world [5; 4; 4])))
       false
     <> true.
Proof.
  repeat split; vm_compute; discriminate.
Qed.


(** C3.  From any state of the callback, a call of [on_epoch_end] whose
    accessor value equals the current [best] (as floats compare equal, or
    as the very same value) leaves [best] as it was and adds one to
    [count], which therefore is not 0 after the call when it was not
    negative before, as in every state the object can reach; the call
    signals stop exactly when that count exceeds patience, as for any
    non-improving value. *)
Theorem early_stopping_tie_is_not_improvement :
  forall (Env MetricFn DataGenerator Params Snapshot : Type)
         (model : Trainer Env MetricFn DataGenerator Params Snapshot)
         (self : EarlyStopping.t Env) (env env1 : Env) (v : float),
    EarlyStopping.metric_fn self env = (Ok v, env1) ->
    float_eq v (EarlyStopping.best self) = true
    \/ v = EarlyStopping.best self ->
    let run := EarlyStopping.on_epoch_end (self, env) in
    let self' := fst (state run) in
    EarlyStopping.best self' = EarlyStopping.best self
    /\ EarlyStopping.count self' = EarlyStopping.count self + 1
    /\ (0 <= EarlyStopping.count self -> EarlyStopping.count self' <> 0)
    /\ EarlyStopping.patience self' = EarlyStopping.patience self
    /\ signaled (trace run)
       = (EarlyStopping.count self + 1 >? EarlyStopping.patience self).
Proof.
  intros Env MetricFn DataGenerator Params Snapshot model self env env1 v
    Hacc Heq.
  assert (Hlt : float_lt v (EarlyStopping.best self) = false).
  { destruct Heq as [Heq | ->].
    - apply float_eq_not_lt, Heq.
    - apply float_lt_irrefl. }
  cbv zeta.
  destruct (EarlyStopping.count self + 1 >? EarlyStopping.patience self)
    eqn:Hgt.
  - destruct (stop_training env1) as [r env2] eqn:Hcall.
    rewrite (on_epoch_end_stops _ _ Hacc Hlt Hgt Hcall). cbn.
    repeat split; lia.
  - rewrite (on_epoch_end_tolerates _ _ Hacc Hlt Hgt). cbn.
    repeat split; lia.
Qed.

Lemma early_stopping_tie_is_not_improvement_witness :
  let self := EarlyStopping.Build Script.next_value 0 (float_of_Z 5) 0 in
  let env := Script.world [5] in
  EarlyStopping.metric_fn self env = (Ok (float_of_Z 5), Script.world [])
  /\ (float_eq (float_of_Z 5) (EarlyStopping.best self) = true
      \/ float_of_Z 5 = EarlyStopping.best self)
  /\ EarlyStopping.best (fst (state (EarlyStopping.on_epoch_end (self, env))))
     = float_of_Z 5
  /\ EarlyStopping.count (fst (state (EarlyStopping.on_epoch_end (self, env))))
     = 1
  /\ signaled (trace (EarlyStopping.on_epoch_end (self, env))) = true.
Proof.
  cbv zeta.
  assert (Hacc : EarlyStopping.metric_fn
                   (EarlyStopping.Build Script.next_value 0 (float_of_Z 5) 0)
                   (Script.world [5])
                 = (Ok (float_of_Z 5), Script.world []))
    by reflexivity.
  assert (Heq : float_eq (float_of_Z 5)
                  (EarlyStopping.best
                     (EarlyStopping.Build Script.next_value 0
                        (float_of_Z 5) 0)) = true
                \/ float_of_Z 5
                   = EarlyStopping.best
                       (EarlyStopping.Build Script.next_value 0
                          (float_of_Z 5) 0))
    by (left; reflexivity).
  split; [exact Hacc | ].
  split; [exact Heq | ].
  destruct (early_stopping_tie_is_not_improvement Script.trainer _ _ Hacc Heq)
    as (Hbest & Hcount & _ & _ & Hsig).
  split; [exact Hbest | ].
  split; [exact Hcount | exact Hsig].
Defined.

(** C10.  Take any state in which stop has been signaled, that is, [count]
    exceeds [patience].  A further call of [on_epoch_end] whose value is
    strictly below [best] returns, makes that value the new [best], sets
    [count] back to 0 and does not call [stop_training]; a further call
    whose value is not strictly below [best] calls [stop_training] once
    more and leaves [count], one higher, above [patience], so that the
    same holds for the call after it. *)
Theorem early_stopping_is_not_sticky :
  forall (Env MetricFn DataGenerator Params Snapshot : Type)
         (model : Trainer Env MetricFn DataGenerator Params Snapshot)
         (self : EarlyStopping.t Env) (env env1 : Env) (v : float),
    EarlyStopping.metric_fn self env = (Ok v, env1) ->
    EarlyStopping.patience self < EarlyStopping.count self ->
    let run := EarlyStopping.on_epoch_end (self, env) in
    let self' := fst (state run) in
    EarlyStopping.patience self' = EarlyStopping.patience self
    /\ if float_lt v (EarlyStopping.best self) then
         outcome run = Ok tt
         /\ EarlyStopping.best self' = v
         /\ EarlyStopping.count self' = 0
         /\ signaled (trace run) = false
       else
         EarlyStopping.best self' = EarlyStopping.best self
         /\ EarlyStopping.count self' = EarlyStopping.count self + 1
         /\ EarlyStopping.patience self' < EarlyStopping.count self'
         /\ trace run
            = [EvMetricFn (Ok v); EvStopTraining (fst (stop_training env1))]
         /\ signaled (trace run) = true.
Proof.
  intros Env MetricFn DataGenerator Params Snapshot model self env env1 v
    Hacc Hpast.
  cbv zeta.
  destruct (float_lt v (EarlyStopping.best self)) eqn:Hlt.
  - rewrite (on_epoch_end_improves _ _ Hacc Hlt). cbn. repeat split.
  - assert (Hgt : (EarlyStopping.count self + 1
                   >? EarlyStopping.patience self) = true)
      by (apply Z.gtb_lt; lia).
    destruct (stop_training env1) as [r env2] eqn:Hcall.
    rewrite (on_epoch_end_stops _ _ Hacc Hlt Hgt Hcall). cbn.
    repeat split; lia.
Qed.

Lemma early_stopping_is_not_sticky_witness :
  let stopped :=
    state (calls 2 EarlyStopping.on_epoch_end
             (Script.stopper 0, Script.world [5; 5; 4; 4])) in
  EarlyStopping.metric_fn (fst stopped) (snd stopped)
  = (Ok (float_of_Z 4), Script.world [4])
  /\ EarlyStopping.patience (fst stopped) < EarlyStopping.count (fst stopped)
  /\ EarlyStopping.count
       (fst (state (EarlyStopping.on_epoch_end stopped))) = 0
  /\ signaled (trace (EarlyStopping.on_epoch_end stopped)) = false
  /\ map signaled
       (traces 4 EarlyStopping.on_epoch_end
          (Script.stopper 0, Script.world [5; 5; 4; 4]))
     = [false; true; false; true].
Proof.
  cbv zeta.
  assert (Hacc : EarlyStopping.metric_fn
                   (fst (state (calls 2 EarlyStopping.on_epoch_end
                                  (Script.stopper 0,
                                   Script.world [5; 5; 4; 4]))))
                   (snd (state (calls 2 EarlyStopping.on_epoch_end
                                  (Script.stopper 0,
                                   Script.world [5; 5; 4; 4]))))
                 = (Ok (float_of_Z 4), Script.world [4]))
    by reflexivity.
  assert (Hpast : EarlyStopping.patience
                    (fst (state (calls 2 EarlyStopping.on_epoch_end
                                   (Script.stopper 0,
                                    Script.world [5; 5; 4; 4]))))
                  < EarlyStopping.count
                      (fst (state (calls 2 EarlyStopping.on_epoch_end
                                     (Script.stopper 0,
                                      Script.world [5; 5; 4; 4])))))
    by reflexivity.
  split; [exact Hacc | ].
  split; [exact Hpast | ].
  pose proof (early_stopping_is_not_sticky Script.trainer _ _ Hacc Hpast)
    as Hstep.
  cbv zeta in Hstep. destruct Hstep as [_ Hstep].
  change (float_lt (float_of_Z 4)
            (EarlyStopping.best
               (fst (state (calls 2 EarlyStopping.on_epoch_end
                              (Script.stopper 0,
                               Script.world [5; 5; 4; 4])))))) with true
    in Hstep.
  destruct Hstep as (_ & _ & Hcount & Hsig).
  split; [ | split]; [ | exact Hsig | reflexivity].
  destruct (state (calls 2 EarlyStopping.on_epoch_end
                     (Script.stopper 0, Script.world [5; 5; 4; 4])))
    as [s e] eqn:Hs.
  exact Hcount.
Defined.

(** ** Epoch numbers *)

Lemma epochs_between_succ (k : Z) (n : nat) :
  epochs_between k (S n) = (k + 1) :: epochs_between (k + 1) n.
Proof.
  unfold epochs_between. cbn [seq map]. f_equal.
  rewrite <- seq_shift, map_map. apply map_ext. intros i. lia.
Qed.

Lemma epochs_between_zero (n : nat) : epochs_between 0 n = epochs_upto n.
Proof. apply map_ext. intros i. reflexivity. Qed.

Lemma epochs_between_length (k : Z) (n : nat) :
  List.length (epochs_between k n) = n.
Proof. unfold epochs_between. rewrite length_map. apply length_seq. Qed.

Lemma map_Ok_inj {A : Type} (l l' : list A) :
  map Ok l = map Ok l' -> l = l'.
Proof.
  revert l'. induction l as [ | a l IH]; intros [ | a' l'] H;
    try discriminate H; [reflexivity | ].
  cbn in H. injection H as -> H. f_equal. apply IH, H.
Qed.

(** ** LearningRateScheduler: calls and runs *)

Section LearningRateSchedulerRun.
Context {Env MetricFn DataGenerator Params Snapshot : Type}.
Context {model : Trainer Env MetricFn DataGenerator Params Snapshot}.

Import LearningRateScheduler.

Local Abbreviation event := (event MetricFn DataGenerator Params Snapshot).

Lemma lrs_call_returns (self s1 : t) (env env1 : Env) (t1 : list event) :
  on_epoch_end (self, env) = (Ok tt, (s1, env1), t1) ->
  exists v : pyval,
    fn self (current_epoch self + 1) = Ok v
    /\ set_learning_rate v env = (Ok tt, env1)
    /\ s1 = Build (fn self) (current_epoch self + 1) v
              (epochs self ++ [current_epoch self + 1])
              (learning_rate self ++ [v])
    /\ t1 = [EvSetLearningRate v (Ok tt)].
Proof.
  unfold on_epoch_end, bind, call, get_self, assign, ret, raise. simpl.
  destruct (fn self (current_epoch self + 1)) as [v | x]; simpl;
    [ | discriminate].
  destruct (set_learning_rate v env) as [[[] | x] env2] eqn:Hset; simpl;
    [ | discriminate].
  intros H. injection H as <- <- <-. exists v. repeat split. exact Hset.
Qed.

Lemma lrs_call_raises (self : t) (env : Env) (x : exn) :
  fn self (current_epoch self + 1) = Raise x
  \/ (exists v : pyval,
        fn self (current_epoch self + 1) = Ok v
        /\ fst (set_learning_rate v env) = Raise x) ->
  let run := on_epoch_end (self, env) in
  outcome run = Raise x
  /\ current_epoch (fst (state run)) = current_epoch self + 1
  /\ epochs (fst (state run)) = epochs self
  /\ learning_rate (fst (state run)) = learning_rate self.
Proof.
  unfold on_epoch_end, bind, call, get_self, assign, ret, raise. simpl.
  intros [Hfn | (v & Hfn & Hset)]; rewrite Hfn; simpl.
  - repeat split.
  - destruct (set_learning_rate v env) as [r env2]. simpl in Hset.
    subst r. simpl. repeat split.
Qed.

Lemma lrs_run_returns (n : nat) :
  forall (self s' : t) (env env' : Env) (tr : list event),
    calls n on_epoch_end (self, env) = (Ok tt, (s', env'), tr) ->
    exists vs : list pyval,
      map Ok vs = map (fn self) (epochs_between (current_epoch self) n)
      /\ fn s' = fn self
      /\ current_epoch s' = current_epoch self + Z.of_nat n
      /\ epochs s' = epochs self ++ epochs_between (current_epoch self) n
      /\ learning_rate s' = learning_rate self ++ vs
      /\ tr = map (fun v => EvSetLearningRate v (Ok tt)) vs
      /\ traces n on_epoch_end (self, env)
         = map (fun v => [EvSetLearningRate v (Ok tt)]) vs.
Proof.
  induction n as [ | n IH]; intros self s' env env' tr Hrun.
  - cbn in Hrun. injection Hrun as <- <- <-. exists [].
    cbn. rewrite !app_nil_r. repeat split. lia.
  - cbn [calls traces] in *. unfold bind in Hrun.
    destruct (on_epoch_end (self, env)) as [[[[] | x] [s1 env1]] t1] eqn:Hcall;
      [ | discriminate Hrun].
    destruct (calls n on_epoch_end (s1, env1)) as [[r [s2 env2]] t2] eqn:Hrest.
    injection Hrun as -> -> -> <-.
    destruct (lrs_call_returns _ _ Hcall) as (v & Hfn & _ & -> & ->).
    destruct (IH _ _ _ _ _ Hrest)
      as (vs & Hvs & Hf & Hce & Hep & Hlr & Htr & Htrs).
    cbn [fn current_epoch epochs learning_rate] in *.
    exists (v :: vs). rewrite epochs_between_succ. cbn [map].
    rewrite Hfn, Hvs, Hf, Hce, Hep, Hlr, Htr, Htrs, <- !app_assoc.
    repeat split. lia.
Qed.

(** When the schedule and the mutator do not raise, neither does a run. *)
Lemma lrs_run_total (n : nat) :
  forall (self : t) (env : Env),
    (forall i : Z, is_ok (fn self i) = true) ->
    (forall (v : pyval) (w : Env),
        is_ok (fst (set_learning_rate v w)) = true) ->
    outcome (calls n on_epoch_end (self, env)) = Ok tt.
Proof.
  induction n as [ | n IH]; intros self env Hfn Hset; [reflexivity | ].
  cbn [calls]. unfold bind.
  destruct (on_epoch_end (self, env)) as [[[[] | x] [s1 env1]] t1] eqn:Hcall.
  - destruct (lrs_call_returns _ _ Hcall) as (v & _ & _ & -> & _).
    specialize (IH (Build (fn self) (current_epoch self + 1) v
                      (epochs self ++ [current_epoch self + 1])
                      (learning_rate self ++ [v])) env1 Hfn Hset).
    destruct (calls n on_epoch_end _) as [[r s2] t2]. exact IH.
  - exfalso. revert Hcall.
    unfold on_epoch_end, bind, call, get_self, assign, ret, raise. simpl.
    specialize (Hfn (current_epoch self + 1)).
    destruct (fn self (current_epoch self + 1)) as [v | y]; simpl;
      [ | discriminate Hfn].
    specialize (Hset v env).
    destruct (set_learning_rate v env) as [[[] | y] env2]; simpl;
      [discriminate | discriminate Hset].
Qed.
End LearningRateSchedulerRun.

(** ** KLWeightScheduler: calls and runs *)

Section KLWeightSchedulerRun.
Context {Env MetricFn DataGenerator Params Snapshot : Type}.
Context {model : Trainer Env MetricFn DataGenerator Params Snapshot}.

Import KLWeightScheduler.

Local Abbreviation event := (event MetricFn DataGenerator Params Snapshot).

Lemma klw_call_returns (self s1 : t) (env env1 : Env) (t1 : list event) :
  on_epoch_end (self, env) = (Ok tt, (s1, env1), t1) ->
  exists v : pyval,
    fn self (current_epoch self + 1) = Ok v
    /\ set_kl_weight v env = (Ok tt, env1)
    /\ s1 = Build (fn self) (current_epoch self + 1) v
              (epochs self ++ [current_epoch self + 1])
              (kl_weights self ++ [v])
    /\ t1 = [EvSetKLWeight v (Ok tt)].
Proof.
  unfold on_epoch_end, bind, call, get_self, assign, ret, raise. simpl.
  destruct (fn self (current_epoch self + 1)) as [v | x]; simpl;
    [ | discriminate].
  destruct (set_kl_weight v env) as [[[] | x] env2] eqn:Hset; simpl;
    [ | discriminate].
  intros H. injection H as <- <- <-. exists v. repeat split. exact Hset.
Qed.

Lemma klw_call_raises (self : t) (env : Env) (x : exn) :
  fn self (current_epoch self + 1) = Raise x
  \/ (exists v : pyval,
        fn self (current_epoch self + 1) = Ok v
        /\ fst (set_kl_weight v env) = Raise x) ->
  let run := on_epoch_end (self, env) in
  outcome run = Raise x
  /\ current_epoch (fst (state run)) = current_epoch self + 1
  /\ epochs (fst (state run)) = epochs self
  /\ kl_weights (fst (state run)) = kl_weights self.
Proof.
  unfold on_epoch_end, bind, call, get_self, assign, ret, raise. simpl.
  intros [Hfn | (v & Hfn & Hset)]; rewrite Hfn; simpl.
  - repeat split.
  - destruct (set_kl_weight v env) as [r env2]. simpl in Hset.
    subst r. simpl. repeat split.
Qed.

Lemma klw_run_returns (n : nat) :
  forall (self s' : t) (env env' : Env) (tr : list event),
    calls n on_epoch_end (self, env) = (Ok tt, (s', env'), tr) ->
    exists vs : list pyval,
      map Ok vs = map (fn self) (epochs_between (current_epoch self) n)
      /\ fn s' = fn self
      /\ current_epoch s' = current_epoch self + Z.of_nat n
      /\ epochs s' = epochs self ++ epochs_between (current_epoch self) n
      /\ kl_weights s' = kl_weights self ++ vs
      /\ tr = map (fun v => EvSetKLWeight v (Ok tt)) vs
      /\ traces n on_epoch_end (self, env)
         = map (fun v => [EvSetKLWeight v (Ok tt)]) vs.
Proof.
  induction n as [ | n IH]; intros self s' env env' tr Hrun.
  - cbn in Hrun. injection Hrun as <- <- <-. exists [].
    cbn. rewrite !app_nil_r. repeat split. lia.
  - cbn [calls traces] in *. unfold bind in Hrun.
    destruct (on_epoch_end (self, env)) as [[[[] | x] [s1 env1]] t1] eqn:Hcall;
      [ | discriminate Hrun].
    destruct (calls n on_epoch_end (s1, env1)) as [[r [s2 env2]] t2] eqn:Hrest.
    injection Hrun as -> -> -> <-.
    destruct (klw_call_returns _ _ Hcall) as (v & Hfn & _ & -> & ->).
    destruct (IH _ _ _ _ _ Hrest)
      as (vs & Hvs & Hf & Hce & Hep & Hlr & Htr & Htrs).
    cbn [fn current_epoch epochs kl_weights] in *.
    exists (v :: vs). rewrite epochs_between_succ. cbn [map].
    rewrite Hfn, Hvs, Hf, Hce, Hep, Hlr, Htr, Htrs, <- !app_assoc.
    repeat split. lia.
Qed.

(** When the schedule and the mutator do not raise, neither does a run. *)
Lemma klw_run_total (n : nat) :
  forall (self : t) (env : Env),
    (forall i : Z, is_ok (fn self i) = true) ->
    (forall (v : pyval) (w : Env),
        is_ok (fst (set_kl_weight v w)) = true) ->
    outcome (calls n on_epoch_end (self, env)) = Ok tt.
Proof.
  induction n as [ | n IH]; intros self env Hfn Hset; [reflexivity | ].
  cbn [calls]. unfold bind.
  destruct (on_epoch_end (self, env)) as [[[[] | x] [s1 env1]] t1] eqn:Hcall.
  - destruct (klw_call_returns _ _ Hcall) as (v & _ & _ & -> & _).
    specialize (IH (Build (fn self) (current_epoch self + 1) v
                      (epochs self ++ [current_epoch self + 1])
                      (kl_weights self ++ [v])) env1 Hfn Hset).
    destruct (calls n on_epoch_end _) as [[r s2] t2]. exact IH.
  - exfalso. revert Hcall.
    unfold on_epoch_end, bind, call, get_self, assign, ret, raise. simpl.
    specialize (Hfn (current_epoch self + 1)).
    destruct (fn self (current_epoch self + 1)) as [v | y]; simpl;
      [ | discriminate Hfn].
    specialize (Hset v env).
    destruct (set_kl_weight v env) as [[[] | y] env2]; simpl;
      [discriminate | discriminate Hset].
Qed.
End KLWeightSchedulerRun.

(** ** The schedulers: the claims *)

Lemma lrs_init_ok (g : schedule) (self : LearningRateScheduler.t) :
  LearningRateScheduler.init (Callable g) = Ok self ->
  self = LearningRateScheduler.Build g 0 (PyInt 0) [] [].
Proof.
  unfold LearningRateScheduler.init.
  destruct (g 1) as [v | x]; [ | discriminate].
  destruct (isinstance_float v); simpl; [ | discriminate].
  intros H. injection H as <-. reflexivity.
Qed.

Lemma klw_init_ok (g : schedule) (self : KLWeightScheduler.t) :
  KLWeightScheduler.init (Callable g) = Ok self ->
  self = KLWeightScheduler.Build g 0 (PyInt 0) [] [].
Proof.
  unfold KLWeightScheduler.init.
  destruct (g 1) as [v | x]; [ | discriminate].
  destruct (isinstance_float v); simpl; [ | discriminate].
  intros H. injection H as <-. reflexivity.
Qed.

Lemma pure_schedule_values (f : Z -> pyval) (l : list Z) (vs : list pyval) :
  map Ok vs = map (pure_schedule f) l -> vs = map f l.
Proof.
  intros H. apply map_Ok_inj. rewrite H, map_map. reflexivity.
Qed.

(** C2.  Take a [LearningRateScheduler] constructed with a schedule
    function [f] and call [on_epoch_end] [e] times, for any [e] (in
    particular any [e >= 1]) and against any Trainer.  If the Trainer's
    [set_learning_rate] never raises, the [e] calls return.  Whenever they
    return, [epochs] is [1, ..., e], [learning_rate] is
    [f(1), ..., f(e)], and the i-th call made exactly one call of
    [set_learning_rate], with [f(i)].  The same holds of a
    [KLWeightScheduler], its [kl_weights] and [set_kl_weight]. *)
Theorem schedulers_record_the_schedule :
  (forall (Env MetricFn DataGenerator Params Snapshot : Type)
          (model : Trainer Env MetricFn DataGenerator Params Snapshot)
          (f : Z -> pyval) (self : LearningRateScheduler.t) (env : Env)
          (e : nat),
      LearningRateScheduler.init (Callable (pure_schedule f)) = Ok self ->
      let run := calls e LearningRateScheduler.on_epoch_end (self, env) in
      ((forall (v : pyval) (w : Env),
           is_ok (fst (set_learning_rate v w)) = true) ->
       outcome run = Ok tt)
      /\ (outcome run = Ok tt ->
          LearningRateScheduler.epochs (fst (state run)) = epochs_upto e
          /\ LearningRateScheduler.learning_rate (fst (state run))
             = map f (epochs_upto e)
          /\ LearningRateScheduler.current_epoch (fst (state run))
             = Z.of_nat e
          /\ map learning_rates_set
               (traces e LearningRateScheduler.on_epoch_end (self, env))
             = map (fun i => [f i]) (epochs_upto e)))
  /\ (forall (Env MetricFn DataGenerator Params Snapshot : Type)
             (model : Trainer Env MetricFn DataGenerator Params Snapshot)
             (f : Z -> pyval) (self : KLWeightScheduler.t) (env : Env)
             (e : nat),
         KLWeightScheduler.init (Callable (pure_schedule f)) = Ok self ->
         let run := calls e KLWeightScheduler.on_epoch_end (self, env) in
         ((forall (v : pyval) (w : Env),
              is_ok (fst (set_kl_weight v w)) = true) ->
          outcome run = Ok tt)
         /\ (outcome run = Ok tt ->
             KLWeightScheduler.epochs (fst (state run)) = epochs_upto e
             /\ KLWeightScheduler.kl_weights (fst (state run))
                = map f (epochs_upto e)
             /\ KLWeightScheduler.current_epoch (fst (state run))
                = Z.of_nat e
             /\ map kl_weights_set
                  (traces e KLWeightScheduler.on_epoch_end (self, env))
                = map (fun i => [f i]) (epochs_upto e))).
Proof.
  split.
  - intros Env MetricFn DataGenerator Params Snapshot model f self env e Hinit.
    apply lrs_init_ok in Hinit. subst self. cbv zeta. split.
    + intros Hset. apply lrs_run_total; [ | exact Hset].
      intros i. reflexivity.
    + destruct (calls e LearningRateScheduler.on_epoch_end _)
        as [[r [s' env']] tr] eqn:Hrun.
      unfold outcome, state. cbn [fst snd]. intros ->.
      destruct (lrs_run_returns _ _ _ Hrun)
        as (vs & Hvs & _ & Hce & Hep & Hlr & _ & Htrs).
      cbn [LearningRateScheduler.fn LearningRateScheduler.current_epoch
           LearningRateScheduler.epochs LearningRateScheduler.learning_rate
           app] in *.
      rewrite epochs_between_zero in *.
      apply pure_schedule_values in Hvs. subst vs.
      rewrite Hep, Hlr, Hce, Htrs, !map_map. repeat split.
  - intros Env MetricFn DataGenerator Params Snapshot model f self env e Hinit.
    apply klw_init_ok in Hinit. subst self. cbv zeta. split.
    + intros Hset. apply klw_run_total; [ | exact Hset].
      intros i. reflexivity.
    + destruct (calls e KLWeightScheduler.on_epoch_end _)
        as [[r [s' env']] tr] eqn:Hrun.
      unfold outcome, state. cbn [fst snd]. intros ->.
      destruct (klw_run_returns _ _ _ Hrun)
        as (vs & Hvs & _ & Hce & Hep & Hlr & _ & Htrs).
      cbn [KLWeightScheduler.fn KLWeightScheduler.current_epoch
           KLWeightScheduler.epochs KLWeightScheduler.kl_weights app] in *.
      rewrite epochs_between_zero in *.
      apply pure_schedule_values in Hvs. subst vs.
      rewrite Hep, Hlr, Hce, Htrs, !map_map. repeat split.
Qed.

Lemma schedulers_record_the_schedule_witness :
  let self :=
    LearningRateScheduler.Build (pure_schedule Script.halving) 0 (PyInt 0)
      [] [] in
  let run :=
    calls 3 LearningRateScheduler.on_epoch_end (self, Script.world []) in
  LearningRateScheduler.init (Callable (pure_schedule Script.halving))
  = Ok self
  /\ outcome run = Ok tt
  /\ LearningRateScheduler.epochs (fst (state run)) = [1; 2; 3]
  /\ LearningRateScheduler.learning_rate (fst (state run))
     = [PyFloat (float_of_Z 8); PyFloat (float_of_Z 4);
        PyFloat (float_of_Z 4)]
  /\ outcome (calls 3 (LearningRateScheduler.on_epoch_end
                         (model := Script.steady)) (self, tt)) = Ok tt.
Proof.
  cbv zeta.
  destruct (proj1 schedulers_record_the_schedule _ _ _ _ _ Script.trainer
              Script.halving _ (Script.world []) 3%nat eq_refl)
    as [_ Hrec].
  destruct (Hrec eq_refl) as (Hep & Hlr & _ & _).
  destruct (proj1 schedulers_record_the_schedule _ _ _ _ _ Script.steady
              Script.halving _ tt 3%nat eq_refl)
    as [Htotal _].
  split; [reflexivity | ].
  split; [reflexivity | ].
  split; [exact Hep | ].
  split; [exact Hlr | ].
  apply Htotal. intros v w. reflexivity.
Defined.

(** C9.  Take a [LearningRateScheduler] after [e] calls of [on_epoch_end]
    that returned.  If in the next call the schedule raises at epoch
    [e+1], or it returns and the Trainer's [set_learning_rate] raises on
    its value, then the call raises that exception and leaves
    [current_epoch] at [e+1] while [epochs] and [learning_rate] still have
    [e] entries, so that the length of [epochs] is no longer
    [current_epoch].  The same holds of a [KLWeightScheduler], its
    [kl_weights] and [set_kl_weight]. *)
Theorem schedulers_are_not_atomic :
  (forall (Env MetricFn DataGenerator Params Snapshot : Type)
          (model : Trainer Env MetricFn DataGenerator Params Snapshot)
          (g : schedule) (self : LearningRateScheduler.t) (env : Env)
          (e : nat) (x : exn),
      LearningRateScheduler.init (Callable g) = Ok self ->
      let before := calls e LearningRateScheduler.on_epoch_end (self, env) in
      outcome before = Ok tt ->
      g (Z.of_nat e + 1) = Raise x
      \/ (exists v : pyval,
             g (Z.of_nat e + 1) = Ok v
             /\ fst (set_learning_rate v (snd (state before))) = Raise x) ->
      let run := LearningRateScheduler.on_epoch_end (state before) in
      outcome run = Raise x
      /\ LearningRateScheduler.current_epoch (fst (state run))
         = Z.of_nat e + 1
      /\ List.length (LearningRateScheduler.epochs (fst (state run))) = e
      /\ List.length (LearningRateScheduler.learning_rate (fst (state run)))
         = e
      /\ Z.of_nat (List.length (LearningRateScheduler.epochs (fst (state run))))
         <> LearningRateScheduler.current_epoch (fst (state run)))
  /\ (forall (Env MetricFn DataGenerator Params Snapshot : Type)
             (model : Trainer Env MetricFn DataGenerator Params Snapshot)
             (g : schedule) (self : KLWeightScheduler.t) (env : Env)
             (e : nat) (x : exn),
         KLWeightScheduler.init (Callable g) = Ok self ->
         let before := calls e KLWeightScheduler.on_epoch_end (self, env) in
         outcome before = Ok tt ->
         g (Z.of_nat e + 1) = Raise x
         \/ (exists v : pyval,
                g (Z.of_nat e + 1) = Ok v
                /\ fst (set_kl_weight v (snd (state before))) = Raise x) ->
         let run := KLWeightScheduler.on_epoch_end (state before) in
         outcome run = Raise x
         /\ KLWeightScheduler.current_epoch (fst (state run))
            = Z.of_nat e + 1
         /\ List.length (KLWeightScheduler.epochs (fst (state run))) = e
         /\ List.length (KLWeightScheduler.kl_weights (fst (state run))) = e
         /\ Z.of_nat (List.length (KLWeightScheduler.epochs (fst (state run))))
            <> KLWeightScheduler.current_epoch (fst (state run))).
Proof.
  split.
  - intros Env MetricFn DataGenerator Params Snapshot model g self env e x
      Hinit.
    apply lrs_init_ok in Hinit. subst self. cbv zeta.
    destruct (calls e LearningRateScheduler.on_epoch_end _)
      as [[r [s' env']] tr] eqn:Hrun.
    unfold outcome at 1, state. cbn [fst snd]. intros -> Hraise.
    destruct (lrs_run_returns _ _ _ Hrun)
      as (vs & Hvs & Hfn & Hce & Hep & Hlr & _ & _).
    cbn [LearningRateScheduler.fn LearningRateScheduler.current_epoch
         LearningRateScheduler.epochs LearningRateScheduler.learning_rate
         app] in *.
    assert (Hlen : List.length vs = e).
    { rewrite <- (length_map Ok vs), Hvs, length_map.
      apply epochs_between_length. }
    destruct (lrs_call_raises s' env' (x := x)) as (Hout & Hce' & Hep' & Hlr').
    { rewrite Hfn, Hce. exact Hraise. }
    unfold state in *.
    rewrite Hout, Hce', Hep', Hlr', Hce, Hep, Hlr, Hlen,
      epochs_between_length.
    repeat split. lia.
  - intros Env MetricFn DataGenerator Params Snapshot model g self env e x
      Hinit.
    apply klw_init_ok in Hinit. subst self. cbv zeta.
    destruct (calls e KLWeightScheduler.on_epoch_end _)
      as [[r [s' env']] tr] eqn:Hrun.
    unfold outcome at 1, state. cbn [fst snd]. intros -> Hraise.
    destruct (klw_run_returns _ _ _ Hrun)
      as (vs & Hvs & Hfn & Hce & Hep & Hlr & _ & _).
    cbn [KLWeightScheduler.fn KLWeightScheduler.current_epoch
         KLWeightScheduler.epochs KLWeightScheduler.kl_weights app] in *.
    assert (Hlen : List.length vs = e).
    { rewrite <- (length_map Ok vs), Hvs, length_map.
      apply epochs_between_length. }
    destruct (klw_call_raises s' env' (x := x)) as (Hout & Hce' & Hep' & Hlr').
    { rewrite Hfn, Hce. exact Hraise. }
    unfold state in *.
    rewrite Hout, Hce', Hep', Hlr', Hce, Hep, Hlr, Hlen,
      epochs_between_length.
    repeat split. lia.
Qed.

Lemma schedulers_are_not_atomic_witness :
  let self :=
    LearningRateScheduler.Build Script.failing_at_3 0 (PyInt 0) [] [] in
  let before :=
    calls 2 LearningRateScheduler.on_epoch_end (self, Script.world []) in
  let run := LearningRateScheduler.on_epoch_end (state before) in
  LearningRateScheduler.init (Callable Script.failing_at_3) = Ok self
  /\ outcome before = Ok tt
  /\ Script.failing_at_3 3 = Raise (Exception "schedule failed")
  /\ outcome run = Raise (Exception "schedule failed")
  /\ LearningRateScheduler.current_epoch (fst (state run)) = 3
  /\ List.length (LearningRateScheduler.epochs (fst (state run))) = 2%nat
  /\ List.length (LearningRateScheduler.learning_rate (fst (state run)))
     = 2%nat.
Proof.
  cbv zeta.
  destruct (proj1 schedulers_are_not_atomic _ _ _ _ _ Script.trainer
              Script.failing_at_3 _ (Script.world []) 2%nat
              (Exception "schedule failed") eq_refl eq_refl
              (or_introl eq_refl))
    as (Hout & Hce & Hep & Hlr & _).
  split; [reflexivity | ].
  split; [reflexivity | ].
  split; [reflexivity | ].
  split; [exact Hout | ].
  split; [exact Hce | ].
  split; [exact Hep | exact Hlr].
Defined.

(** C4.  The constructors validate their arguments and fail at once.
    [LearningRateScheduler(fn)] and [KLWeightScheduler(fn)] raise a
    [TypeError] when [fn] is not callable and when [fn(1)] returns a value
    that is not a float; when [fn(1)] itself raises, so does the
    constructor.  [EarlyStopping(metric_fn, patience)] raises a [TypeError]
    when [patience] is not an int, a [ValueError] when it is a negative
    int, and a [TypeError] when [metric_fn] is not callable; whatever the
    other argument is, each of the three faults makes the constructor
    raise a configuration error.  In every such case the constructor
    returns no object, so none of its methods can run.  The three examples
    of the specification raise as it says. *)
Theorem constructors_fail_fast :
  (forall a : pyarg schedule,
      callable a = false ->
      LearningRateScheduler.init a = Raise (TypeError "fn must be a callable")
      /\ KLWeightScheduler.init a = Raise (TypeError "fn must be a callable"))
  /\ (forall (g : schedule) (v : pyval),
         g 1 = Ok v ->
         isinstance_float v = false ->
         LearningRateScheduler.init (Callable g)
         = Raise (TypeError "fn must return a float")
         /\ KLWeightScheduler.init (Callable g)
            = Raise (TypeError "fn must return a float"))
  /\ (forall (g : schedule) (x : exn),
         g 1 = Raise x ->
         LearningRateScheduler.init (Callable g) = Raise x
         /\ KLWeightScheduler.init (Callable g) = Raise x)
  /\ (forall (Env : Type) (a : pyarg (EarlyStopping.accessor Env))
             (p : pyval),
         isinstance_int p = false ->
         EarlyStopping.init a p = Raise (TypeError "patience must be an int"))
  /\ (forall (Env : Type) (a : pyarg (EarlyStopping.accessor Env))
             (p : pyval) (z : Z),
         int_value p = Some z ->
         z < 0 ->
         EarlyStopping.init a p
         = Raise (ValueError "patience must be non-negative"))
  /\ (forall (Env : Type) (a : pyarg (EarlyStopping.accessor Env))
             (p : pyval) (z : Z),
         callable a = false ->
         int_value p = Some z ->
         0 <= z ->
         EarlyStopping.init a p
         = Raise (TypeError "metric_fn must be a callable"))
  /\ (forall (Env : Type) (a : pyarg (EarlyStopping.accessor Env))
             (p : pyval),
         callable a = false
         \/ isinstance_int p = false
         \/ (exists z : Z, int_value p = Some z /\ z < 0) ->
         configuration_error (EarlyStopping.init a p))
  /\ LearningRateScheduler.init (Callable (fun _ => Ok (PyStr "x")))
     = Raise (TypeError "fn must return a float")
  /\ EarlyStopping.init
       (Callable (fun w : unit => (Ok (float_of_Z 1), w))) (PyInt (-1))
     = Raise (ValueError "patience must be non-negative")
  /\ EarlyStopping.init (Value (PyInt 5) : pyarg (EarlyStopping.accessor unit))
       (PyInt 0)
     = Raise (TypeError "metric_fn must be a callable").
Proof.
  repeat match goal with |- _ /\ _ => split end; try reflexivity.
  - intros [g | v] Hcall; [discriminate Hcall | split; reflexivity].
  - intros g v Hprobe Hfloat.
    unfold LearningRateScheduler.init, KLWeightScheduler.init.
    rewrite Hprobe, Hfloat. split; reflexivity.
  - intros g x Hprobe.
    unfold LearningRateScheduler.init, KLWeightScheduler.init.
    rewrite Hprobe. split; reflexivity.
  - intros Env a p Hint. unfold EarlyStopping.init. rewrite Hint. reflexivity.
  - intros Env a p z Hval Hneg. unfold EarlyStopping.init.
    destruct p; try discriminate Hval; cbn in *; injection Hval as ->;
      apply Z.ltb_lt in Hneg; rewrite Hneg; reflexivity.
  - intros Env [f | v] p z Hcall Hval Hpos; [discriminate Hcall | ].
    unfold EarlyStopping.init.
    destruct p; try discriminate Hval; cbn in *; injection Hval as ->;
      apply Z.ltb_ge in Hpos; rewrite Hpos; reflexivity.
  - intros Env a p. unfold EarlyStopping.init.
    destruct (isinstance_int p) eqn:Hint; cbn [negb]; [ | intros _; exact I].
    destruct (int_value p) as [z | ] eqn:Hval; [ | intros _; exact I].
    destruct (z <? 0) eqn:Hneg; [intros _; exact I | ].
    destruct a as [f | v]; [ | intros _; exact I].
    intros [Hcall | [Habs | (z' & Hz' & Hlt)]]; try discriminate.
    injection Hz' as <-. apply Z.ltb_ge in Hneg. lia.
Qed.

Lemma constructors_fail_fast_witness :
  (callable (Value PyNone : pyarg schedule) = false
   /\ LearningRateScheduler.init (Value PyNone)
      = Raise (TypeError "fn must be a callable"))
  /\ (pure_schedule (fun _ => PyInt 1) 1 = Ok (PyInt 1)
      /\ isinstance_float (PyInt 1) = false
      /\ KLWeightScheduler.init (Callable (pure_schedule (fun _ => PyInt 1)))
         = Raise (TypeError "fn must return a float"))
  /\ (isinstance_int (PyFloat (float_of_Z 1)) = false
      /\ EarlyStopping.init (Callable Script.next_value)
           (PyFloat (float_of_Z 1))
         = Raise (TypeError "patience must be an int"))
  /\ (int_value (PyInt (-1)) = Some (-1)
      /\ -1 < 0
      /\ EarlyStopping.init (Callable Script.next_value) (PyInt (-1))
         = Raise (ValueError "patience must be non-negative"))
  /\ (callable (Value (PyInt 5) : pyarg (EarlyStopping.accessor Script.env))
      = false
      /\ int_value (PyBool true) = Some 1
      /\ 0 <= 1
      /\ EarlyStopping.init
           (Value (PyInt 5) : pyarg (EarlyStopping.accessor Script.env))
           (PyBool true)
         = Raise (TypeError "metric_fn must be a callable"))
  /\ configuration_error
       (EarlyStopping.init
          (Value (PyInt 5) : pyarg (EarlyStopping.accessor Script.env))
          (PyInt (-1))).
Proof.
  destruct constructors_fail_fast
    as (Hcallable & Hprobe & _ & Hint & Hneg & Hacc & Hany & _).
  split.
  { split; [reflexivity | ].
    exact (proj1 (Hcallable (Value PyNone) eq_refl)). }
  split.
  { split; [reflexivity | ]. split; [reflexivity | ].
    exact (proj2 (Hprobe (pure_schedule (fun _ => PyInt 1)) (PyInt 1)
                    eq_refl eq_refl)). }
  split.
  { split; [reflexivity | ].
    exact (Hint _ (Callable Script.next_value) (PyFloat (float_of_Z 1))
             eq_refl). }
  split.
  { split; [reflexivity | ]. split; [reflexivity | ].
    exact (Hneg _ (Callable Script.next_value) (PyInt (-1)) (-1) eq_refl
             eq_refl). }
  split.
  { split; [reflexivity | ]. split; [reflexivity | ].
    split; [discriminate | ].
    apply (Hacc _ (Value (PyInt 5)) (PyBool true) 1); try reflexivity.
    discriminate. }
  apply Hany. left. reflexivity.
Defined.

(** ** MonitorMetric: calls and runs *)

Section MonitorMetricRun.
Context {Env Metric Data MetricFn DataGenerator Params Snapshot : Type}.
Context {model : Trainer Env MetricFn DataGenerator Params Snapshot}.
Context {resolver : Resolver Metric Data MetricFn DataGenerator}.

Import MonitorMetric.

Local Abbreviation event := (event MetricFn DataGenerator Params Snapshot).

Lemma mm_call_raises (self : t MetricFn DataGenerator) (env env1 : Env)
    (x : exn) :
  metric (metric_fn self) (data self) env = (Raise x, env1) ->
  on_epoch_end (self, env)
  = (Raise x, (self, env1),
     [EvMetric (metric_fn self) (data self) (Raise x)]).
Proof.
  intros Hcall.
  unfold on_epoch_end, bind, call, get_self, assign, ret, emit. simpl.
  rewrite Hcall. reflexivity.
Qed.

Lemma mm_call_returns (self : t MetricFn DataGenerator) (env env1 : Env)
    (m : float) :
  metric (metric_fn self) (data self) env = (Ok m, env1) ->
  on_epoch_end (self, env)
  = (Ok tt,
     (Build (metric_fn self) (data self) m (current_epoch self + 1)
        (metrics self ++ [m]) (epochs self ++ [current_epoch self + 1])
        (verbose self), env1),
     EvMetric (metric_fn self) (data self) (Ok m)
     :: (if verbose self
         then [EvPrint (current_epoch self + 1) (fn_name (metric_fn self)) m]
         else [])).
Proof.
  destruct self as [f d cm ce ms es vb]. cbn [metric_fn data]. intros Hcall.
  unfold on_epoch_end, bind, call, get_self, assign, ret, emit. simpl.
  rewrite Hcall. simpl. destruct vb; reflexivity.
Qed.

Lemma mm_run_returns (n : nat) :
  forall (self s' : t MetricFn DataGenerator) (env env' : Env)
         (tr : list event),
    calls n on_epoch_end (self, env) = (Ok tt, (s', env'), tr) ->
    current_epoch s' = current_epoch self + Z.of_nat n
    /\ epochs s' = epochs self ++ epochs_between (current_epoch self) n
    /\ exists vs : list float,
         List.length vs = n /\ metrics s' = metrics self ++ vs.
Proof.
  induction n as [ | n IH]; intros self s' env env' tr Hrun.
  - cbn in Hrun. injection Hrun as <- <- <-.
    cbn. rewrite app_nil_r. repeat split; [lia | ].
    exists []. rewrite app_nil_r. split; reflexivity.
  - cbn [calls] in Hrun. unfold bind in Hrun.
    destruct (metric (metric_fn self) (data self) env) as [[m | x] env1]
      eqn:Hcall.
    2:{ rewrite (mm_call_raises _ _ Hcall) in Hrun. discriminate Hrun. }
    rewrite (mm_call_returns _ _ Hcall) in Hrun.
    destruct (calls n on_epoch_end _) as [[r [s2 env2]] t2] eqn:Hrest.
    injection Hrun as -> -> -> <-.
    destruct (IH _ _ _ _ _ Hrest) as (Hce & Hep & vs & Hlen & Hms).
    cbn [current_epoch epochs metrics] in *.
    rewrite epochs_between_succ, Hce, Hep, Hms, <- !app_assoc.
    repeat split; [lia | ].
    exists (m :: vs). split; [cbn; f_equal; exact Hlen | reflexivity].
Qed.

Lemma mm_run_total (n : nat) :
  forall (self : t MetricFn DataGenerator) (env : Env),
    (forall (f : MetricFn) (d : DataGenerator) (w : Env),
        is_ok (fst (metric f d w)) = true) ->
    outcome (calls n on_epoch_end (self, env)) = Ok tt.
Proof.
  induction n as [ | n IH]; intros self env Htotal; [reflexivity | ].
  cbn [calls]. unfold bind.
  specialize (Htotal (metric_fn self) (data self) env) as Hnow.
  destruct (metric (metric_fn self) (data self) env) as [[m | x] env1]
    eqn:Hcall; [ | discriminate Hnow].
  rewrite (mm_call_returns _ _ Hcall).
  specialize (IH (Build (metric_fn self) (data self) m (current_epoch self + 1)
                    (metrics self ++ [m])
                    (epochs self ++ [current_epoch self + 1])
                    (verbose self)) env1 Htotal).
  destruct (calls n on_epoch_end _) as [[r s2] t2]. exact IH.
Qed.
End MonitorMetricRun.

(** ** MonitorMetric: the claims *)

(** C5.  A [MonitorMetric], as its constructor builds it, has [nan] for
    [current_metric] before any call of [on_epoch_end].  After [n] calls
    that returned, against any Trainer, [epochs] and [metrics] both have
    [n] entries and [epochs] is [1, ..., n]; and the [n] calls do return
    when the Trainer's [metric] never raises. *)
Theorem monitor_metric_history :
  forall (Env Metric Data MetricFn DataGenerator Params Snapshot : Type)
         (model : Trainer Env MetricFn DataGenerator Params Snapshot)
         (resolver : Resolver Metric Data MetricFn DataGenerator)
         (m : Metric) (x : Data) (y : option Data) (verbose : bool)
         (self : MonitorMetric.t MetricFn DataGenerator) (env : Env)
         (n : nat),
    MonitorMetric.init m x y verbose = Ok self ->
    let run := calls n MonitorMetric.on_epoch_end (self, env) in
    MonitorMetric.current_metric self = nan
    /\ is_nan (MonitorMetric.current_metric self) = true
    /\ ((forall (f : MetricFn) (d : DataGenerator) (w : Env),
            is_ok (fst (metric f d w)) = true) ->
        outcome run = Ok tt)
    /\ (outcome run = Ok tt ->
        List.length (MonitorMetric.epochs (fst (state run))) = n
        /\ List.length (MonitorMetric.metrics (fst (state run))) = n
        /\ MonitorMetric.epochs (fst (state run)) = epochs_upto n).
Proof.
  intros Env Metric Data MetricFn DataGenerator Params Snapshot model resolver
    m x y verbose self env n Hinit.
  assert (Hself : exists f d,
             self = MonitorMetric.Build f d nan 0 [] [] verbose).
  { revert Hinit. unfold MonitorMetric.init.
    destruct (get_metric_fn m) as [f | e]; [ | discriminate].
    destruct (make_generator x y) as [d | e]; [ | discriminate].
    intros H. injection H as <-. exists f, d. reflexivity. }
  destruct Hself as (f & d & ->). cbv zeta.
  split; [reflexivity | ]. split; [reflexivity | ].
  split; [apply mm_run_total | ].
  destruct (calls n MonitorMetric.on_epoch_end _) as [[r [s' env']] tr]
    eqn:Hrun.
  unfold outcome, state. cbn [fst snd]. intros ->.
  destruct (mm_run_returns _ _ _ Hrun) as (_ & Hep & vs & Hlen & Hms).
  cbn [MonitorMetric.current_epoch MonitorMetric.epochs MonitorMetric.metrics
       app] in *.
  rewrite Hep, Hms, epochs_between_zero. unfold epochs_upto.
  rewrite length_map, length_seq. repeat split. exact Hlen.
Qed.

Lemma monitor_metric_history_witness :
  let self := MonitorMetric.Build "mse" [1; 2] nan 0 [] [] true in
  let run := calls 2 MonitorMetric.on_epoch_end (self, Script.world [7; 6]) in
  MonitorMetric.init "mse" [1; 2] None true = Ok self
  /\ outcome run = Ok tt
  /\ List.length (MonitorMetric.epochs (fst (state run))) = 2%nat
  /\ List.length (MonitorMetric.metrics (fst (state run))) = 2%nat
  /\ MonitorMetric.epochs (fst (state run)) = [1; 2].
Proof.
  cbv zeta.
  destruct (monitor_metric_history Script.trainer Script.resolver
              "mse" [1; 2] None true (Script.world [7; 6]) 2 eq_refl)
    as (_ & _ & _ & Hrec).
  split; [reflexivity | ].
  split; [reflexivity | ].
  exact (Hrec eq_refl).
Defined.

(** C8.  When the Trainer's metric computation raises in
    [MonitorMetric.on_epoch_end], the call raises the same exception and
    the object is exactly as before the call: [current_metric],
    [current_epoch], [metrics], [epochs] and every other field. *)
Theorem monitor_metric_atomic_on_failure :
  forall (Env Metric Data MetricFn DataGenerator Params Snapshot : Type)
         (model : Trainer Env MetricFn DataGenerator Params Snapshot)
         (resolver : Resolver Metric Data MetricFn DataGenerator)
         (self : MonitorMetric.t MetricFn DataGenerator) (env : Env)
         (x : exn),
    fst (metric (MonitorMetric.metric_fn self) (MonitorMetric.data self) env)
    = Raise x ->
    let run := MonitorMetric.on_epoch_end (self, env) in
    let self' := fst (state run) in
    outcome run = Raise x
    /\ self' = self
    /\ MonitorMetric.current_metric self' = MonitorMetric.current_metric self
    /\ MonitorMetric.current_epoch self' = MonitorMetric.current_epoch self
    /\ MonitorMetric.metrics self' = MonitorMetric.metrics self
    /\ MonitorMetric.epochs self' = MonitorMetric.epochs self.
Proof.
  intros Env Metric Data MetricFn DataGenerator Params Snapshot model resolver
    self env x Hraise.
  destruct (metric (MonitorMetric.metric_fn self) (MonitorMetric.data self)
              env) as [r env1] eqn:Hcall.
  cbn [fst] in Hraise. subst r. cbv zeta.
  rewrite (mm_call_raises (resolver := resolver) _ _ Hcall).
  repeat split.
Qed.

Lemma monitor_metric_atomic_on_failure_witness :
  let self :=
    MonitorMetric.Build "mse" [1; 2] (float_of_Z 7) 1 [float_of_Z 7] [1]
      true in
  let env := Script.Build [float_of_Z 6] false in
  let run := MonitorMetric.on_epoch_end (self, env) in
  fst (metric (MonitorMetric.metric_fn self) (MonitorMetric.data self) env)
  = Raise (Exception "trainer failed")
  /\ outcome run = Raise (Exception "trainer failed")
  /\ fst (state run) = self.
Proof.
  cbv zeta.
  destruct (monitor_metric_atomic_on_failure Script.trainer Script.resolver
              (MonitorMetric.Build "mse" [1; 2] (float_of_Z 7) 1
                 [float_of_Z 7] [1] true)
              (Script.Build [float_of_Z 6] false)
              (x := Exception "trainer failed") eq_refl)
    as (Hout & Hself & _).
  split; [reflexivity | ].
  split; [exact Hout | exact Hself].
Defined.

(** ** MonitorParameter: calls and runs *)

Section MonitorParameterRun.
Context {Env MetricFn DataGenerator Params Snapshot : Type}.
Context {model : Trainer Env MetricFn DataGenerator Params Snapshot}.

Import MonitorParameter.

Local Abbreviation event := (event MetricFn DataGenerator Params Snapshot).

Lemma mp_call_raises (self : t Params Snapshot) (env env1 : Env) (x : exn) :
  posterior_mean (params self) env = (Raise x, env1) ->
  on_epoch_end (self, env)
  = (Raise x, (self, env1), [EvPosteriorMean (params self) (Raise x)]).
Proof.
  intros Hcall.
  unfold on_epoch_end, bind, call, get_self, assign, ret. simpl.
  rewrite Hcall. reflexivity.
Qed.

Lemma mp_call_returns (self : t Params Snapshot) (env env1 : Env)
    (snapshot : Snapshot) :
  posterior_mean (params self) env = (Ok snapshot, env1) ->
  on_epoch_end (self, env)
  = (Ok tt,
     (Build (params self) (Some snapshot) (current_epoch self + 1)
        (parameter_values self ++ [Some snapshot])
        (epochs self ++ [current_epoch self + 1]), env1),
     [EvPosteriorMean (params self) (Ok snapshot)]).
Proof.
  intros Hcall.
  unfold on_epoch_end, bind, call, get_self, assign, ret. simpl.
  rewrite Hcall. reflexivity.
Qed.

Lemma mp_run_returns (n : nat) :
  forall (self s' : t Params Snapshot) (env env' : Env) (tr : list event),
    calls n on_epoch_end (self, env) = (Ok tt, (s', env'), tr) ->
    parameter_values s'
    = parameter_values self ++ map Some (snapshots_returned tr)
    /\ epochs s' = epochs self ++ epochs_between (current_epoch self) n
    /\ List.length (snapshots_returned tr) = n
    /\ map snapshots_returned (traces n on_epoch_end (self, env))
       = map (fun v => [v]) (snapshots_returned tr).
Proof.
  induction n as [ | n IH]; intros self s' env env' tr Hrun.
  - cbn in Hrun. injection Hrun as <- <- <-.
    cbn. rewrite !app_nil_r. repeat split.
  - cbn [calls traces] in *. unfold bind in Hrun.
    destruct (posterior_mean (params self) env) as [[v | x] env1] eqn:Hcall.
    2:{ rewrite (mp_call_raises _ _ Hcall) in Hrun. discriminate Hrun. }
    rewrite (mp_call_returns _ _ Hcall) in *.
    destruct (calls n on_epoch_end _) as [[r [s2 env2]] t2] eqn:Hrest.
    injection Hrun as -> -> -> <-.
    destruct (IH _ _ _ _ _ Hrest) as (Hpv & Hep & Hlen & Htrs).
    cbn [current_epoch epochs parameter_values] in *.
    rewrite epochs_between_succ, Hpv, Hep, <- !app_assoc.
    cbn. rewrite Htrs. repeat split. exact (f_equal S Hlen).
Qed.
End MonitorParameterRun.

(** ** MonitorParameter: the claims *)

(** C6.  A [MonitorParameter] has [None] for [current_params] before the
    first call of [on_epoch_end].  A call in which the Trainer's
    [posterior_mean] returns a snapshot makes that very snapshot
    [current_params] and appends it, unchanged, to [parameter_values].
    So after [n] calls that returned, [parameter_values] holds exactly the
    snapshots [posterior_mean] returned, one for each call and in the
    order of the calls. *)
Theorem monitor_parameter_is_a_recorder :
  forall (Env Data MetricFn DataGenerator Params Snapshot : Type)
         (model : Trainer Env MetricFn DataGenerator Params Snapshot)
         (x : Data) (y : option Data) (params : option Params),
    let self : MonitorParameter.t Params Snapshot :=
      MonitorParameter.init x y params in
    MonitorParameter.current_params self = None
    /\ (forall (s : MonitorParameter.t Params Snapshot) (env env1 : Env)
               (snapshot : Snapshot),
           posterior_mean (MonitorParameter.params s) env
           = (Ok snapshot, env1) ->
           let run := MonitorParameter.on_epoch_end (s, env) in
           outcome run = Ok tt
           /\ MonitorParameter.current_params (fst (state run))
              = Some snapshot
           /\ MonitorParameter.parameter_values (fst (state run))
              = MonitorParameter.parameter_values s ++ [Some snapshot])
    /\ (forall (env : Env) (n : nat),
           let run := calls n MonitorParameter.on_epoch_end (self, env) in
           outcome run = Ok tt ->
           MonitorParameter.parameter_values (fst (state run))
           = map Some (snapshots_returned (trace run))
           /\ List.length (snapshots_returned (trace run)) = n
           /\ map snapshots_returned
                (traces n MonitorParameter.on_epoch_end (self, env))
              = map (fun v => [v]) (snapshots_returned (trace run))
           /\ MonitorParameter.epochs (fst (state run)) = epochs_upto n).
Proof.
  intros Env Data MetricFn DataGenerator Params Snapshot model x y params.
  cbv zeta. split; [reflexivity | ]. split.
  - intros s env env1 snapshot Hcall.
    rewrite (mp_call_returns _ _ Hcall). repeat split.
  - intros env n.
    destruct (calls n MonitorParameter.on_epoch_end _) as [[r [s' env']] tr]
      eqn:Hrun.
    unfold outcome, state, trace. cbn [fst snd]. intros ->.
    destruct (mp_run_returns _ _ _ Hrun) as (Hpv & Hep & Hlen & Htrs).
    cbn [MonitorParameter.init MonitorParameter.current_epoch
         MonitorParameter.epochs MonitorParameter.parameter_values app] in *.
    rewrite epochs_between_zero in Hep. repeat split; assumption.
Qed.

Lemma monitor_parameter_is_a_recorder_witness :
  let self : MonitorParameter.t (list string) (list (string * float)) :=
    MonitorParameter.init [1; 2] None None in
  let run :=
    calls 2 MonitorParameter.on_epoch_end (self, Script.world [3; 2]) in
  posterior_mean (MonitorParameter.params self) (Script.world [3; 2])
  = (Ok [("w", float_of_Z 3)], Script.world [2])
  /\ outcome run = Ok tt
  /\ MonitorParameter.current_params
       (fst (state (MonitorParameter.on_epoch_end (self, Script.world [3; 2]))))
     = Some [("w", float_of_Z 3)]
  /\ MonitorParameter.parameter_values (fst (state run))
     = map Some (snapshots_returned (trace run))
  /\ MonitorParameter.parameter_values (fst (state run))
     = [Some [("w", float_of_Z 3)]; Some [("w", float_of_Z 2)]].
Proof.
  cbv zeta.
  destruct (monitor_parameter_is_a_recorder Script.trainer [1; 2] None
              (None : option (list string)))
    as (_ & Hcall & Hrun).
  destruct (Hcall (MonitorParameter.init [1; 2] None None)
              (Script.world [3; 2]) (Script.world [2])
              [("w", float_of_Z 3)] eq_refl)
    as (_ & Hcur & _).
  destruct (Hrun (Script.world [3; 2]) 2%nat eq_refl) as (Hpv & _).
  split; [reflexivity | ].
  split; [reflexivity | ].
  split; [exact Hcur | ].
  split; [exact Hpv | reflexivity].
Defined.

(** C7, as amended.  The constructor of [MonitorParameter] takes the data
    [x] and [y] and keeps none of it: the object it builds holds [params],
    no current snapshot, epoch 0 and empty histories, and is the same
    whatever [x] and [y] are. *)
Theorem monitor_parameter_drops_data :
  forall (Data Params Snapshot : Type) (x x' : Data) (y y' : option Data)
         (params : option Params),
    (MonitorParameter.init x y params : MonitorParameter.t Params Snapshot)
    = MonitorParameter.init x' y' params
    /\ (MonitorParameter.init x y params : MonitorParameter.t Params Snapshot)
       = MonitorParameter.Build params None 0 [] [].
Proof.
  intros Data Params Snapshot x x' y y' params. split; reflexivity.
Qed.

(** C7 as it stands fails: the data cannot be read back from the object,
    since two constructions from different data give the same object. *)
Lemma monitor_parameter_keeps_data_counterexample :
  ~ MonitorParameter.keeps_data (list Z) (list string)
      (list (string * float)).
Proof.
  intros [recover Hrecover].
  pose proof (Hrecover [1] (Some [3]) None) as H1.
  pose proof (Hrecover [2] None None) as H2.
  change (MonitorParameter.init [1] (Some [3]) None)
    with (MonitorParameter.init (Snapshot := list (string * float))
            [2] None (None : option (list string))) in H1.
  rewrite H2 in H1. discriminate H1.
Qed.

(** * Further properties *)

(** ** The order of floats *)

Lemma float_lt_nan_l (a : float) : float_lt nan a = false.
Proof. reflexivity. Qed.

Lemma float_lt_inf_l (a : float) : float_lt inf a = false.
Proof.
  destruct a as [s | s | | s m e]; try reflexivity; destruct s; reflexivity.
Qed.

Lemma float_lt_trans (a b c : float) :
  float_lt a b = true -> float_lt b c = true -> float_lt a c = true.
Proof.
  unfold float_lt, SFltb.
  destruct a as [s1 | s1 | | s1 m1 e1], b as [s2 | s2 | | s2 m2 e2],
    c as [s3 | s3 | | s3 m3 e3];
    cbn [SFcompare]; try discriminate; try reflexivity.
  all: try (destruct s1, s2, s3; try discriminate; try reflexivity; fail).
  all: try (destruct s1, s2; try discriminate; try reflexivity; fail).
  all: try (destruct s2, s3; try discriminate; try reflexivity; fail).
  all: try (destruct s1, s3; try discriminate; try reflexivity; fail).
  change PosDef.Pos.compare_cont with Pos.compare_cont.
  fold (Pos.compare m1 m2) (Pos.compare m2 m3) (Pos.compare m1 m3).
  destruct s1, s2, s3; try discriminate; try reflexivity;
    destruct (Z.compare_spec e1 e2), (Z.compare_spec e2 e3),
      (Z.compare_spec e1 e3);
    try discriminate; try reflexivity; try lia;
    destruct (Pos.compare_spec m1 m2), (Pos.compare_spec m2 m3),
      (Pos.compare_spec m1 m3);
    cbn; try discriminate; try reflexivity; lia.
Qed.

Lemma float_lt_asym (a b : float) :
  float_lt a b = true -> float_lt b a = false.
Proof.
  intros Hab. destruct (float_lt b a) eqn:Hba; [ | reflexivity].
  rewrite <- (float_lt_irrefl a). symmetry.
  exact (float_lt_trans _ _ _ Hab Hba).
Qed.

(** ** EarlyStopping: failures, NaN and what a run keeps *)

Section EarlyStoppingMore.
Context {Env MetricFn DataGenerator Params Snapshot : Type}.
Context {model : Trainer Env MetricFn DataGenerator Params Snapshot}.

Import EarlyStopping StoppingRule.

(** What one call does to the fields, whatever happens in it. *)
Lemma on_epoch_end_fields (self : t Env) (env : Env) :
  let self' := fst (state (on_epoch_end (self, env))) in
  metric_fn self' = metric_fn self
  /\ patience self' = patience self
  /\ ((best self' = best self /\ count self' = count self)
      \/ (float_lt (best self') (best self) = true /\ count self' = 0)
      \/ (best self' = best self /\ count self' = count self + 1)).
Proof.
  cbv zeta.
  destruct (metric_fn self env) as [[v | e] env1] eqn:Hacc.
  2:{ rewrite (on_epoch_end_raises _ _ Hacc). cbn. intuition auto. }
  destruct (float_lt v (best self)) eqn:Hlt.
  { rewrite (on_epoch_end_improves _ _ Hacc Hlt). cbn. intuition auto. }
  destruct (count self + 1 >? patience self) eqn:Hgt.
  - destruct (stop_training env1) as [r env2] eqn:Hcall.
    rewrite (on_epoch_end_stops _ _ Hacc Hlt Hgt Hcall). cbn.
    intuition auto.
  - rewrite (on_epoch_end_tolerates _ _ Hacc Hlt Hgt). cbn. intuition auto.
Qed.

Lemma attempts_keep (n : nat) :
  forall (self : t Env) (env : Env) (c : nat),
    is_nan (best self) = false ->
    0 <= count self <= Z.of_nat c ->
    let self' := fst (attempts n on_epoch_end (self, env)) in
    is_nan (best self') = false
    /\ 0 <= count self' <= Z.of_nat (c + n)
    /\ patience self' = patience self
    /\ metric_fn self' = metric_fn self.
Proof.
  induction n as [ | n IH]; intros self env c Hnan Hcount; cbv zeta.
  - cbn [attempts fst]. rewrite Nat.add_0_r. auto.
  - cbn [attempts].
    destruct (on_epoch_end_fields self env) as (Hf & Hp & Hcases).
    destruct (state (on_epoch_end (self, env))) as [s1 env1].
    cbn [fst] in *.
    destruct (IH s1 env1 (S c)) as (Hnan' & Hcount' & Hp' & Hf').
    + destruct Hcases as [[Hb _] | [[Hb _] | [Hb _]]];
        try (rewrite Hb; exact Hnan).
      destruct (best s1); try reflexivity. discriminate Hb.
    + destruct Hcases as [[_ Hc] | [[_ Hc] | [_ Hc]]]; lia.
    + rewrite Hp', Hf', Hp, Hf. repeat split; try assumption; lia.
Qed.

Lemma signals_wait (n : nat) :
  forall (self : t Env) (env : Env) (i : nat),
    0 <= count self ->
    count self + Z.of_nat i < patience self ->
    nth i (map signaled (traces n on_epoch_end (self, env))) false = false.
Proof.
  induction n as [ | n IH]; intros self env i Hcount Hwait.
  - destruct i; reflexivity.
  - cbn [traces].
    destruct (metric_fn self env) as [[v | e] env1] eqn:Hacc.
    2:{ rewrite (on_epoch_end_raises _ _ Hacc).
        destruct i as [ | [ | i]]; reflexivity. }
    destruct (float_lt v (best self)) eqn:Hlt.
    { rewrite (on_epoch_end_improves _ _ Hacc Hlt).
      destruct i as [ | i]; [reflexivity | ].
      cbn [map nth]. apply IH; cbn [count patience]; lia. }
    assert (Hgt : (count self + 1 >? patience self) = false).
    { destruct (count self + 1 >? patience self) eqn:Hgt; [ | reflexivity].
      apply Z.gtb_lt in Hgt. lia. }
    rewrite (on_epoch_end_tolerates _ _ Hacc Hlt Hgt).
    destruct i as [ | i]; [reflexivity | ].
    cbn [map nth]. apply IH; cbn [count patience]; lia.
Qed.

Lemma best_seen_from (vs : list float) :
  forall b : float,
    let r := fold_left (fun b v => if float_lt v b then v else b) vs b in
    (float_lt r b = true \/ r = b)
    /\ Forall (fun v => float_lt v r = false) vs
    /\ (r = b \/ In r vs).
Proof.
  induction vs as [ | v vs IH]; intros b; cbv zeta; cbn [fold_left].
  - repeat split; auto.
  - destruct (IH (if float_lt v b then v else b)) as (Hle & Hall & Hin).
    set (r := fold_left _ vs _) in *.
    destruct (float_lt v b) eqn:Hvb.
    + split; [ | split].
      * left. destruct Hle as [Hlt | ->]; [ | exact Hvb].
        exact (float_lt_trans _ _ _ Hlt Hvb).
      * constructor; [ | exact Hall].
        destruct Hle as [Hlt | ->];
          [apply float_lt_asym, Hlt | apply float_lt_irrefl].
      * right. destruct Hin as [-> | Hin];
          [left; reflexivity | right; exact Hin].
    + split; [exact Hle | split].
      * constructor; [ | exact Hall].
        destruct Hle as [Hlt | ->]; [ | exact Hvb].
        destruct (float_lt v r) eqn:Hvr; [ | reflexivity].
        rewrite <- Hvb. symmetry. exact (float_lt_trans _ _ _ Hvr Hlt).
      * destruct Hin as [-> | Hin];
          [left; reflexivity | right; right; exact Hin].
Qed.

(** The fields after a run agree with the values the run observed. *)
Lemma run_tracks (n : nat) :
  forall (self : t Env) (env : Env) (history : list float),
    tracks history self ->
    tracks
      (history
       ++ map fst (observations (traces n on_epoch_end (self, env))))
      (fst (state (calls n on_epoch_end (self, env)))).
Proof.
  induction n as [ | n IH]; intros self env history Htracks.
  - cbn. rewrite app_nil_r. exact Htracks.
  - destruct Htracks as [Hbest Hcount].
    cbn [calls traces]. unfold bind.
    destruct (metric_fn self env) as [[v | e] env1] eqn:Hacc.
    2:{ rewrite (on_epoch_end_raises _ _ Hacc). cbn. rewrite app_nil_r.
        split; assumption. }
    assert (Himp : improves history v = float_lt v (best self))
      by (unfold improves; rewrite Hbest; reflexivity).
    assert (Hnext : forall s1 : t Env,
               best s1 = (if float_lt v (best self) then v else best self) ->
               count s1 = (if float_lt v (best self) then 0
                           else count self + 1) ->
               tracks (history ++ [v]) s1).
    { intros s1 Hb Hc. split.
      - rewrite best_seen_snoc, Himp, Hb.
        destruct (float_lt v (best self)); [reflexivity | exact Hbest].
      - rewrite non_improving_count_snoc, Himp, Hc.
        destruct (float_lt v (best self)); [reflexivity | ].
        rewrite Hcount. lia. }
    destruct (float_lt v (best self)) eqn:Hlt.
    { rewrite (on_epoch_end_improves _ _ Hacc Hlt).
      specialize (IH (Build (metric_fn self) (patience self) v 0) env1
                    (history ++ [v])
                    (Hnext (Build (metric_fn self) (patience self) v 0)
                       eq_refl eq_refl)).
      destruct (calls n on_epoch_end _) as [[r s2] t2].
      cbn [observations flat_map observed app map fst snd state] in *.
      rewrite <- app_assoc in IH. exact IH. }
    destruct (count self + 1 >? patience self) eqn:Hgt.
    + destruct (stop_training env1) as [r env2] eqn:Hcall.
      rewrite (on_epoch_end_stops _ _ Hacc Hlt Hgt Hcall).
      destruct r as [[] | x].
      * specialize (IH (Build (metric_fn self) (patience self) (best self)
                          (count self + 1)) env2
                      (history ++ [v])
                      (Hnext (Build (metric_fn self) (patience self)
                                (best self) (count self + 1))
                         eq_refl eq_refl)).
        destruct (calls n on_epoch_end _) as [[r s2] t2].
        cbn [observations flat_map observed app map fst snd state] in *.
        rewrite <- app_assoc in IH. exact IH.
      * cbn.
        exact (Hnext (Build (metric_fn self) (patience self) (best self)
                        (count self + 1)) eq_refl eq_refl).
    + rewrite (on_epoch_end_tolerates _ _ Hacc Hlt Hgt).
      specialize (IH (Build (metric_fn self) (patience self) (best self)
                        (count self + 1)) env1
                    (history ++ [v])
                    (Hnext (Build (metric_fn self) (patience self)
                              (best self) (count self + 1))
                       eq_refl eq_refl)).
      destruct (calls n on_epoch_end _) as [[r s2] t2].
      cbn [observations flat_map observed app map fst snd state] in *.
      rewrite <- app_assoc in IH. exact IH.
Qed.
End EarlyStoppingMore.

(** ** EarlyStopping: further properties *)

(** X1.  When the accessor raises, [EarlyStopping.on_epoch_end] raises the
    same exception, leaves the object as it was and does not call
    [stop_training]. *)
Theorem early_stopping_accessor_failure :
  forall (Env MetricFn DataGenerator Params Snapshot : Type)
         (model : Trainer Env MetricFn DataGenerator Params Snapshot)
         (self : EarlyStopping.t Env) (env : Env) (x : exn),
    fst (EarlyStopping.metric_fn self env) = Raise x ->
    let run := EarlyStopping.on_epoch_end (self, env) in
    outcome run = Raise x
    /\ fst (state run) = self
    /\ signaled (trace run) = false.
Proof.
  intros Env MetricFn DataGenerator Params Snapshot model self env x Hraise.
  destruct (EarlyStopping.metric_fn self env) as [r env1] eqn:Hacc.
  cbn [fst] in Hraise. subst r. cbv zeta.
  rewrite (on_epoch_end_raises _ _ Hacc). repeat split.
Qed.

Lemma early_stopping_accessor_failure_witness :
  let run :=
    EarlyStopping.on_epoch_end (Script.stopper 0, Script.world []) in
  fst (EarlyStopping.metric_fn (Script.stopper 0) (Script.world []))
  = Raise (Exception "nothing to read")
  /\ outcome run = Raise (Exception "nothing to read")
  /\ fst (state run) = Script.stopper 0
  /\ signaled (trace run) = false.
Proof.
  cbv zeta. split; [reflexivity | ].
  exact (early_stopping_accessor_failure Script.trainer (Script.stopper 0)
           (Script.world []) (x := Exception "nothing to read") eq_refl).
Defined.

(** X2.  When a call of [EarlyStopping.on_epoch_end] reaches
    [stop_training] and that raises, the exception goes to the caller with
    [count] already one higher; [best] is as it was. *)
Theorem early_stopping_stop_failure :
  forall (Env MetricFn DataGenerator Params Snapshot : Type)
         (model : Trainer Env MetricFn DataGenerator Params Snapshot)
         (self : EarlyStopping.t Env) (env env1 : Env) (v : float)
         (x : exn),
    EarlyStopping.metric_fn self env = (Ok v, env1) ->
    float_lt v (EarlyStopping.best self) = false ->
    EarlyStopping.patience self < EarlyStopping.count self + 1 ->
    fst (stop_training env1) = Raise x ->
    let run := EarlyStopping.on_epoch_end (self, env) in
    outcome run = Raise x
    /\ EarlyStopping.count (fst (state run)) = EarlyStopping.count self + 1
    /\ EarlyStopping.best (fst (state run)) = EarlyStopping.best self
    /\ signaled (trace run) = true.
Proof.
  intros Env MetricFn DataGenerator Params Snapshot model self env env1 v x
    Hacc Hlt Hpast Hraise.
  assert (Hgt : (EarlyStopping.count self + 1 >? EarlyStopping.patience self)
                = true) by (apply Z.gtb_lt; lia).
  destruct (stop_training env1) as [r env2] eqn:Hcall.
  cbn [fst] in Hraise. subst r. cbv zeta.
  rewrite (on_epoch_end_stops _ _ Hacc Hlt Hgt Hcall). repeat split.
Qed.

Lemma early_stopping_stop_failure_witness :
  let self := EarlyStopping.Build Script.next_value 0 (float_of_Z 5) 0 in
  let env := Script.Build [float_of_Z 5] false in
  let run := EarlyStopping.on_epoch_end (self, env) in
  EarlyStopping.metric_fn self env
  = (Ok (float_of_Z 5), Script.Build [] false)
  /\ float_lt (float_of_Z 5) (EarlyStopping.best self) = false
  /\ EarlyStopping.patience self < EarlyStopping.count self + 1
  /\ fst (stop_training (Script.Build [] false))
     = Raise (Exception "trainer failed")
  /\ outcome run = Raise (Exception "trainer failed")
  /\ EarlyStopping.count (fst (state run)) = 1.
Proof.
  cbv zeta.
  destruct (early_stopping_stop_failure Script.trainer
              (EarlyStopping.Build Script.next_value 0 (float_of_Z 5) 0)
              (Script.Build [float_of_Z 5] false)
              (env1 := Script.Build [] false) (v := float_of_Z 5)
              (x := Exception "trainer failed")
              eq_refl eq_refl eq_refl eq_refl)
    as (Hout & Hcount & _).
  split; [reflexivity | ].
  split; [reflexivity | ].
  split; [reflexivity | ].
  split; [reflexivity | ].
  split; [exact Hout | exact Hcount].
Defined.

(** X3.  A NaN returned by the accessor never counts as an improvement:
    from any state, the call leaves [best] as it was, adds one to [count]
    and signals stop exactly when that count exceeds [patience]. *)
Theorem early_stopping_nan_never_improves :
  forall (Env MetricFn DataGenerator Params Snapshot : Type)
         (model : Trainer Env MetricFn DataGenerator Params Snapshot)
         (self : EarlyStopping.t Env) (env env1 : Env),
    EarlyStopping.metric_fn self env = (Ok nan, env1) ->
    let run := EarlyStopping.on_epoch_end (self, env) in
    EarlyStopping.best (fst (state run)) = EarlyStopping.best self
    /\ EarlyStopping.count (fst (state run)) = EarlyStopping.count self + 1
    /\ signaled (trace run)
       = (EarlyStopping.count self + 1 >? EarlyStopping.patience self).
Proof.
  intros Env MetricFn DataGenerator Params Snapshot model self env env1 Hacc.
  pose proof (float_lt_nan_l (EarlyStopping.best self)) as Hlt.
  cbv zeta.
  destruct (EarlyStopping.count self + 1 >? EarlyStopping.patience self)
    eqn:Hgt.
  - destruct (stop_training env1) as [r env2] eqn:Hcall.
    rewrite (on_epoch_end_stops _ _ Hacc Hlt Hgt Hcall). repeat split.
  - rewrite (on_epoch_end_tolerates _ _ Hacc Hlt Hgt). repeat split.
Qed.

Lemma early_stopping_nan_never_improves_witness :
  let env := Script.Build [nan] true in
  let run := EarlyStopping.on_epoch_end (Script.stopper 0, env) in
  EarlyStopping.metric_fn (Script.stopper 0) env
  = (Ok nan, Script.Build [] true)
  /\ EarlyStopping.best (fst (state run)) = inf
  /\ EarlyStopping.count (fst (state run)) = 1
  /\ signaled (trace run) = true.
Proof.
  cbv zeta. split; [reflexivity | ].
  exact (early_stopping_nan_never_improves Script.trainer (Script.stopper 0)
           (Script.Build [nan] true) (env1 := Script.Build [] true) eq_refl).
Defined.

(** X4.  Whatever [n] calls of [on_epoch_end] an [EarlyStopping] from the
    constructor goes through, returning or raising: [best] is not NaN,
    [count] is at least 0 and at most [n], and [patience] and the accessor
    are the ones given to the constructor. *)
Theorem early_stopping_invariants :
  forall (Env MetricFn DataGenerator Params Snapshot : Type)
         (model : Trainer Env MetricFn DataGenerator Params Snapshot)
         (f : EarlyStopping.accessor Env) (p : pyval)
         (self : EarlyStopping.t Env) (env : Env) (n : nat),
    EarlyStopping.init (Callable f) p = Ok self ->
    let self' := fst (attempts n EarlyStopping.on_epoch_end (self, env)) in
    is_nan (EarlyStopping.best self') = false
    /\ 0 <= EarlyStopping.count self' <= Z.of_nat n
    /\ int_value p = Some (EarlyStopping.patience self')
    /\ EarlyStopping.metric_fn self' = f.
Proof.
  intros Env MetricFn DataGenerator Params Snapshot model f p self env n
    Hinit.
  destruct (early_stopping_init_ok _ _ Hinit) as (z & Hz & _ & ->).
  destruct (attempts_keep n (EarlyStopping.Build f z inf 0) env 0)
    as (Hnan & Hcount & Hp & Hf); [reflexivity | cbn; lia | ].
  cbv zeta. rewrite Hp, Hf. repeat split; try assumption; lia.
Qed.

Lemma early_stopping_invariants_witness :
  let self' :=
    fst (attempts 4 EarlyStopping.on_epoch_end
           (Script.stopper 1, Script.world [5; 5; 4])) in
  EarlyStopping.init (Callable Script.next_value) (PyInt 1)
  = Ok (Script.stopper 1)
  /\ is_nan (EarlyStopping.best self') = false
  /\ 0 <= EarlyStopping.count self' <= 4
  /\ EarlyStopping.count self' = 0.
Proof.
  cbv zeta.
  destruct (early_stopping_invariants Script.trainer Script.next_value
              (PyInt 1) (Script.world [5; 5; 4]) 4 eq_refl)
    as (Hnan & Hcount & _).
  split; [reflexivity | ].
  split; [exact Hnan | ].
  split; [exact Hcount | reflexivity].
Defined.

(** X5.  An [EarlyStopping] from the constructor never signals stop in the
    first [patience] calls of a run, whatever the accessor returns. *)
Theorem early_stopping_waits_patience :
  forall (Env MetricFn DataGenerator Params Snapshot : Type)
         (model : Trainer Env MetricFn DataGenerator Params Snapshot)
         (f : EarlyStopping.accessor Env) (p : pyval)
         (self : EarlyStopping.t Env) (env : Env) (n i : nat),
    EarlyStopping.init (Callable f) p = Ok self ->
    Z.of_nat i < EarlyStopping.patience self ->
    nth i (map signaled (traces n EarlyStopping.on_epoch_end (self, env)))
      false
    = false.
Proof.
  intros Env MetricFn DataGenerator Params Snapshot model f p self env n i
    Hinit Hearly.
  destruct (early_stopping_init_ok _ _ Hinit) as (z & _ & _ & ->).
  apply signals_wait; cbn in *; lia.
Qed.

Lemma early_stopping_waits_patience_witness :
  EarlyStopping.init (Callable Script.next_value) (PyInt 2)
  = Ok (Script.stopper 2)
  /\ Z.of_nat 1 < EarlyStopping.patience (Script.stopper 2)
  /\ nth 1 (map signaled (traces 4 EarlyStopping.on_epoch_end
                            (Script.stopper 2, Script.world [5; 5; 5; 5])))
       false
     = false
  /\ map signaled (traces 4 EarlyStopping.on_epoch_end
                     (Script.stopper 2, Script.world [5; 5; 5; 5]))
     = [false; false; false; true].
Proof.
  split; [reflexivity | ].
  split; [reflexivity | ].
  split; [ | reflexivity].
  exact (early_stopping_waits_patience Script.trainer Script.next_value
           (PyInt 2) (Script.world [5; 5; 5; 5]) 4 1 eq_refl eq_refl).
Defined.

(** X6.  When a run of an [EarlyStopping] from the constructor ends, by
    its last call or by an exception, [best] is positive infinity or one of
    the values the accessor returned, none of those values is strictly
    below [best], and [count] is the number of non-improving values the
    run ends with. *)
Theorem early_stopping_best_is_lowest :
  forall (Env MetricFn DataGenerator Params Snapshot : Type)
         (model : Trainer Env MetricFn DataGenerator Params Snapshot)
         (f : EarlyStopping.accessor Env) (p : pyval)
         (self : EarlyStopping.t Env) (env : Env) (n : nat),
    EarlyStopping.init (Callable f) p = Ok self ->
    let values :=
      map fst (observations (traces n EarlyStopping.on_epoch_end (self, env)))
    in
    let self' := fst (state (calls n EarlyStopping.on_epoch_end (self, env))) in
    Forall (fun v => float_lt v (EarlyStopping.best self') = false) values
    /\ (EarlyStopping.best self' = inf \/ In (EarlyStopping.best self') values)
    /\ EarlyStopping.count self'
       = Z.of_nat (StoppingRule.non_improving_count values).
Proof.
  intros Env MetricFn DataGenerator Params Snapshot model f p self env n
    Hinit.
  destruct (early_stopping_init_ok _ _ Hinit) as (z & _ & _ & ->).
  cbv zeta.
  destruct (@run_tracks _ _ _ _ _ model n (EarlyStopping.Build f z inf 0)
              env [] (tracks_init f z)) as [Hbest Hcount].
  cbn [app] in *. rewrite Hbest, Hcount.
  destruct (best_seen_from
              (map fst (observations
                          (traces n EarlyStopping.on_epoch_end
                             (EarlyStopping.Build f z inf 0, env)))) inf)
    as (_ & Hall & Hin).
  repeat split; assumption.
Qed.

Lemma early_stopping_best_is_lowest_witness :
  let self' :=
    fst (state (calls 3 EarlyStopping.on_epoch_end
                  (Script.stopper 1, Script.world [5; 4; 6]))) in
  EarlyStopping.init (Callable Script.next_value) (PyInt 1)
  = Ok (Script.stopper 1)
  /\ Forall (fun v => float_lt v (EarlyStopping.best self') = false)
       (map float_of_Z [5; 4; 6])
  /\ EarlyStopping.best self' = float_of_Z 4
  /\ EarlyStopping.count self' = 1.
Proof.
  cbv zeta.
  destruct (early_stopping_best_is_lowest Script.trainer Script.next_value
              (PyInt 1) (Script.world [5; 4; 6]) 3 eq_refl)
    as (Hall & _ & _).
  split; [reflexivity | ].
  split; [exact Hall | ].
  split; reflexivity.
Defined.

Lemma sorted_snoc (l : list Z) (a : Z) :
  StronglySorted Z.lt l ->
  Forall (fun e => e < a) l ->
  StronglySorted Z.lt (l ++ [a]).
Proof.
  induction 1 as [ | e l Hl IHl He]; intros Hbelow; cbn.
  - constructor; constructor.
  - inversion Hbelow as [ | e0 l0 He0 Hl0]; subst.
    constructor; [apply IHl, Hl0 | ].
    apply Forall_app. split; [exact He | ].
    constructor; [exact He0 | constructor].
Qed.

(** [n] calls and then [k] calls are [n + k] calls. *)
Lemma calls_add {E S : Type} (m : M E S unit) (n k : nat) (s : S) :
  calls (n + k) m s = (calls n m ;; calls k m) s.
Proof.
  revert s. induction n as [ | n IH]; intros s.
  - cbn. unfold bind, ret.
    destruct (calls k m s) as [[r s'] t]. reflexivity.
  - cbn [calls Nat.add]. unfold bind.
    destruct (m s) as [[[[] | x] s1] t1]; [ | reflexivity].
    rewrite IH. unfold bind.
    destruct (calls n m s1) as [[[[] | x] s2] t2]; [ | reflexivity].
    destruct (calls k m s2) as [[r s3] t3]. rewrite app_assoc. reflexivity.
Qed.

(** ** LearningRateScheduler: any call, and calls after a failure *)

Section LearningRateSchedulerMore.
Context {Env MetricFn DataGenerator Params Snapshot : Type}.
Context {model : Trainer Env MetricFn DataGenerator Params Snapshot}.

Import LearningRateScheduler.

Local Abbreviation event := (event MetricFn DataGenerator Params Snapshot).

(** A call in which the schedule returns. *)
Lemma lrs_call_with_value (self : t) (env : Env) (v : pyval) :
  fn self (current_epoch self + 1) = Ok v ->
  on_epoch_end (self, env)
  = match set_learning_rate v env with
    | (Ok _, env1) =>
        (Ok tt,
         (Build (fn self) (current_epoch self + 1) v
            (epochs self ++ [current_epoch self + 1])
            (learning_rate self ++ [v]), env1),
         [EvSetLearningRate v (Ok tt)])
    | (Raise x, env1) =>
        (Raise x,
         (Build (fn self) (current_epoch self + 1) v (epochs self)
            (learning_rate self), env1),
         [EvSetLearningRate v (Raise x)])
    end.
Proof.
  intros Hfn.
  unfold on_epoch_end, bind, call, get_self, assign, ret, raise. simpl.
  rewrite Hfn. simpl.
  destruct (set_learning_rate v env) as [[[] | x] env1]; reflexivity.
Qed.

(** A call in which the schedule raises. *)
Lemma lrs_call_without_value (self : t) (env : Env) (x : exn) :
  fn self (current_epoch self + 1) = Raise x ->
  on_epoch_end (self, env)
  = (Raise x,
     (Build (fn self) (current_epoch self + 1) (current_lr self)
        (epochs self) (learning_rate self), env),
     []).
Proof.
  intros Hfn.
  unfold on_epoch_end, bind, call, get_self, assign, ret, raise. simpl.
  rewrite Hfn. reflexivity.
Qed.

(** What one call does to the fields, whatever happens in it. *)
Lemma lrs_call_fields (self : t) (env : Env) :
  let run := on_epoch_end (self, env) in
  let self' := fst (state run) in
  fn self' = fn self
  /\ current_epoch self' = current_epoch self + 1
  /\ ((outcome run = Ok tt
       /\ exists v : pyval,
            fn self (current_epoch self + 1) = Ok v
            /\ epochs self' = epochs self ++ [current_epoch self + 1]
            /\ learning_rate self' = learning_rate self ++ [v])
      \/ (is_ok (outcome run) = false
          /\ epochs self' = epochs self
          /\ learning_rate self' = learning_rate self)).
Proof.
  cbv zeta.
  destruct (fn self (current_epoch self + 1)) as [v | x] eqn:Hfn.
  - rewrite (lrs_call_with_value _ env Hfn).
    destruct (set_learning_rate v env) as [[[] | x] env1]; cbn.
    + repeat split. left. split; [reflexivity | ].
      exists v. repeat split.
    + repeat split. right. repeat split.
  - rewrite (lrs_call_without_value _ env Hfn). cbn.
    repeat split. right. repeat split.
Qed.

Lemma lrs_attempts_keep (n : nat) :
  forall (self : t) (env : Env) (low : Z),
    low <= current_epoch self ->
    List.length (epochs self) = List.length (learning_rate self) ->
    map Ok (learning_rate self) = map (fn self) (epochs self) ->
    Forall (fun e => low < e <= current_epoch self) (epochs self) ->
    StronglySorted Z.lt (epochs self) ->
    let self' := fst (attempts n on_epoch_end (self, env)) in
    fn self' = fn self
    /\ current_epoch self' = current_epoch self + Z.of_nat n
    /\ List.length (epochs self') = List.length (learning_rate self')
    /\ map Ok (learning_rate self') = map (fn self) (epochs self')
    /\ Forall (fun e => low < e <= current_epoch self') (epochs self')
    /\ StronglySorted Z.lt (epochs self').
Proof.
  induction n as [ | n IH]; intros self env low Hlow Hlen Hval Hrange Hsort;
    cbv zeta.
  - cbn [attempts fst]. rewrite Z.add_0_r. repeat split; assumption.
  - cbn [attempts].
    destruct (lrs_call_fields self env) as (Hf & Hce & Hcases).
    destruct (state (on_epoch_end (self, env))) as [s1 env1].
    cbn [fst] in *.
    assert (Hstep :
              List.length (epochs s1) = List.length (learning_rate s1)
              /\ map Ok (learning_rate s1) = map (fn self) (epochs s1)
              /\ Forall (fun e => low < e <= current_epoch s1) (epochs s1)
              /\ StronglySorted Z.lt (epochs s1)).
    { destruct Hcases as [(_ & v & Hfn & Hep & Hlr) | (_ & Hep & Hlr)];
        rewrite Hep, Hlr, Hce.
      - rewrite !length_app, !map_app, Hlen, Hval. cbn [List.length map].
        rewrite Hfn. repeat split.
        + apply Forall_app. split.
          * eapply Forall_impl; [ | exact Hrange]. cbn. intros e He. lia.
          * constructor; [lia | constructor].
        + apply sorted_snoc; [exact Hsort | ].
          eapply Forall_impl; [ | exact Hrange]. cbn. intros e He. lia.
      - repeat split; try assumption.
        eapply Forall_impl; [ | exact Hrange]. cbn. intros e He. lia. }
    destruct Hstep as (Hlen1 & Hval1 & Hrange1 & Hsort1).
    destruct (IH s1 env1 low)
      as (Hf' & Hce' & Hlen' & Hval' & Hrange' & Hsort').
    + lia.
    + exact Hlen1.
    + rewrite Hf. exact Hval1.
    + exact Hrange1.
    + exact Hsort1.
    + rewrite Hf in Hval'.
      repeat split; try assumption; [congruence | lia].
Qed.
End LearningRateSchedulerMore.

(** ** KLWeightScheduler: any call, and calls after a failure *)

Section KLWeightSchedulerMore.
Context {Env MetricFn DataGenerator Params Snapshot : Type}.
Context {model : Trainer Env MetricFn DataGenerator Params Snapshot}.

Import KLWeightScheduler.

Local Abbreviation event := (event MetricFn DataGenerator Params Snapshot).

(** A call in which the schedule returns. *)
Lemma klw_call_with_value (self : t) (env : Env) (v : pyval) :
  fn self (current_epoch self + 1) = Ok v ->
  on_epoch_end (self, env)
  = match set_kl_weight v env with
    | (Ok _, env1) =>
        (Ok tt,
         (Build (fn self) (current_epoch self + 1) v
            (epochs self ++ [current_epoch self + 1])
            (kl_weights self ++ [v]), env1),
         [EvSetKLWeight v (Ok tt)])
    | (Raise x, env1) =>
        (Raise x,
         (Build (fn self) (current_epoch self + 1) v (epochs self)
            (kl_weights self), env1),
         [EvSetKLWeight v (Raise x)])
    end.
Proof.
  intros Hfn.
  unfold on_epoch_end, bind, call, get_self, assign, ret, raise. simpl.
  rewrite Hfn. simpl.
  destruct (set_kl_weight v env) as [[[] | x] env1]; reflexivity.
Qed.

(** A call in which the schedule raises. *)
Lemma klw_call_without_value (self : t) (env : Env) (x : exn) :
  fn self (current_epoch self + 1) = Raise x ->
  on_epoch_end (self, env)
  = (Raise x,
     (Build (fn self) (current_epoch self + 1) (current_w self)
        (epochs self) (kl_weights self), env),
     []).
Proof.
  intros Hfn.
  unfold on_epoch_end, bind, call, get_self, assign, ret, raise. simpl.
  rewrite Hfn. reflexivity.
Qed.

(** What one call does to the fields, whatever happens in it. *)
Lemma klw_call_fields (self : t) (env : Env) :
  let run := on_epoch_end (self, env) in
  let self' := fst (state run) in
  fn self' = fn self
  /\ current_epoch self' = current_epoch self + 1
  /\ ((outcome run = Ok tt
       /\ exists v : pyval,
            fn self (current_epoch self + 1) = Ok v
            /\ epochs self' = epochs self ++ [current_epoch self + 1]
            /\ kl_weights self' = kl_weights self ++ [v])
      \/ (is_ok (outcome run) = false
          /\ epochs self' = epochs self
          /\ kl_weights self' = kl_weights self)).
Proof.
  cbv zeta.
  destruct (fn self (current_epoch self + 1)) as [v | x] eqn:Hfn.
  - rewrite (klw_call_with_value _ env Hfn).
    destruct (set_kl_weight v env) as [[[] | x] env1]; cbn.
    + repeat split. left. split; [reflexivity | ].
      exists v. repeat split.
    + repeat split. right. repeat split.
  - rewrite (klw_call_without_value _ env Hfn). cbn.
    repeat split. right. repeat split.
Qed.

Lemma klw_attempts_keep (n : nat) :
  forall (self : t) (env : Env) (low : Z),
    low <= current_epoch self ->
    List.length (epochs self) = List.length (kl_weights self) ->
    map Ok (kl_weights self) = map (fn self) (epochs self) ->
    Forall (fun e => low < e <= current_epoch self) (epochs self) ->
    StronglySorted Z.lt (epochs self) ->
    let self' := fst (attempts n on_epoch_end (self, env)) in
    fn self' = fn self
    /\ current_epoch self' = current_epoch self + Z.of_nat n
    /\ List.length (epochs self') = List.length (kl_weights self')
    /\ map Ok (kl_weights self') = map (fn self) (epochs self')
    /\ Forall (fun e => low < e <= current_epoch self') (epochs self')
    /\ StronglySorted Z.lt (epochs self').
Proof.
  induction n as [ | n IH]; intros self env low Hlow Hlen Hval Hrange Hsort;
    cbv zeta.
  - cbn [attempts fst]. rewrite Z.add_0_r. repeat split; assumption.
  - cbn [attempts].
    destruct (klw_call_fields self env) as (Hf & Hce & Hcases).
    destruct (state (on_epoch_end (self, env))) as [s1 env1].
    cbn [fst] in *.
    assert (Hstep :
              List.length (epochs s1) = List.length (kl_weights s1)
              /\ map Ok (kl_weights s1) = map (fn self) (epochs s1)
              /\ Forall (fun e => low < e <= current_epoch s1) (epochs s1)
              /\ StronglySorted Z.lt (epochs s1)).
    { destruct Hcases as [(_ & v & Hfn & Hep & Hlr) | (_ & Hep & Hlr)];
        rewrite Hep, Hlr, Hce.
      - rewrite !length_app, !map_app, Hlen, Hval. cbn [List.length map].
        rewrite Hfn. repeat split.
        + apply Forall_app. split.
          * eapply Forall_impl; [ | exact Hrange]. cbn. intros e He. lia.
          * constructor; [lia | constructor].
        + apply sorted_snoc; [exact Hsort | ].
          eapply Forall_impl; [ | exact Hrange]. cbn. intros e He. lia.
      - repeat split; try assumption.
        eapply Forall_impl; [ | exact Hrange]. cbn. intros e He. lia. }
    destruct Hstep as (Hlen1 & Hval1 & Hrange1 & Hsort1).
    destruct (IH s1 env1 low)
      as (Hf' & Hce' & Hlen' & Hval' & Hrange' & Hsort').
    + lia.
    + exact Hlen1.
    + rewrite Hf. exact Hval1.
    + exact Hrange1.
    + exact Hsort1.
    + rewrite Hf in Hval'.
      repeat split; try assumption; [congruence | lia].
Qed.
End KLWeightSchedulerMore.

(** ** The schedulers: further properties *)

(** X7.  Only the constructor checks the type of what the schedule
    returns.  In [on_epoch_end], from any state, whatever value the
    schedule returns for the new epoch, float or not, becomes
    [current_lr] and is passed to the Trainer's [set_learning_rate], in
    the only outside call of the method; the method returns or raises as
    that call does, and when it returns the value and the epoch are
    appended to the histories.  The same holds of [KLWeightScheduler]. *)
Theorem schedulers_forward_any_value :
  (forall (Env MetricFn DataGenerator Params Snapshot : Type)
          (model : Trainer Env MetricFn DataGenerator Params Snapshot)
          (self : LearningRateScheduler.t) (env : Env) (v : pyval),
      LearningRateScheduler.fn self
        (LearningRateScheduler.current_epoch self + 1) = Ok v ->
      let run := LearningRateScheduler.on_epoch_end (self, env) in
      let self' := fst (state run) in
      trace run = [EvSetLearningRate v (fst (set_learning_rate v env))]
      /\ outcome run = fst (set_learning_rate v env)
      /\ LearningRateScheduler.current_lr self' = v
      /\ (outcome run = Ok tt ->
          LearningRateScheduler.learning_rate self'
          = LearningRateScheduler.learning_rate self ++ [v]
          /\ LearningRateScheduler.epochs self'
             = LearningRateScheduler.epochs self
               ++ [LearningRateScheduler.current_epoch self + 1]))
  /\ (forall (Env MetricFn DataGenerator Params Snapshot : Type)
             (model : Trainer Env MetricFn DataGenerator Params Snapshot)
             (self : KLWeightScheduler.t) (env : Env) (v : pyval),
         KLWeightScheduler.fn self
           (KLWeightScheduler.current_epoch self + 1) = Ok v ->
         let run := KLWeightScheduler.on_epoch_end (self, env) in
         let self' := fst (state run) in
         trace run = [EvSetKLWeight v (fst (set_kl_weight v env))]
         /\ outcome run = fst (set_kl_weight v env)
         /\ KLWeightScheduler.current_w self' = v
         /\ (outcome run = Ok tt ->
             KLWeightScheduler.kl_weights self'
             = KLWeightScheduler.kl_weights self ++ [v]
             /\ KLWeightScheduler.epochs self'
                = KLWeightScheduler.epochs self
                  ++ [KLWeightScheduler.current_epoch self + 1])).
Proof.
  split.
  - intros Env MetricFn DataGenerator Params Snapshot model self env v Hfn.
    cbv zeta. rewrite (lrs_call_with_value _ env Hfn).
    destruct (set_learning_rate v env) as [[[] | x] env1]; cbn.
    + repeat split.
    + repeat split; discriminate.
  - intros Env MetricFn DataGenerator Params Snapshot model self env v Hfn.
    cbv zeta. rewrite (klw_call_with_value _ env Hfn).
    destruct (set_kl_weight v env) as [[[] | x] env1]; cbn.
    + repeat split.
    + repeat split; discriminate.
Qed.

Lemma schedulers_forward_any_value_witness :
  let self :=
    LearningRateScheduler.Build (pure_schedule (fun _ => PyStr "fast")) 1
      (PyFloat (float_of_Z 8)) [1] [PyFloat (float_of_Z 8)] in
  let run :=
    LearningRateScheduler.on_epoch_end (self, Script.world []) in
  LearningRateScheduler.fn self (LearningRateScheduler.current_epoch self + 1)
  = Ok (PyStr "fast")
  /\ isinstance_float (PyStr "fast") = false
  /\ trace run = [EvSetLearningRate (PyStr "fast") (Ok tt)]
  /\ outcome run = Ok tt
  /\ LearningRateScheduler.learning_rate (fst (state run))
     = [PyFloat (float_of_Z 8); PyStr "fast"].
Proof.
  cbv zeta.
  destruct (proj1 schedulers_forward_any_value _ _ _ _ _ Script.trainer
              (LearningRateScheduler.Build
                 (pure_schedule (fun _ => PyStr "fast")) 1
                 (PyFloat (float_of_Z 8)) [1] [PyFloat (float_of_Z 8)])
              (Script.world []) (PyStr "fast") eq_refl)
    as (Htrace & Hout & _ & Hrec).
  split; [reflexivity | ].
  split; [reflexivity | ].
  split; [exact Htrace | ].
  split; [exact Hout | ].
  exact (proj1 (Hrec Hout)).
Defined.

(** X8.  An epoch whose call raised is never recorded.  From any state of
    a [LearningRateScheduler], when a call of [on_epoch_end] raises and the
    next call returns, that next call appends epoch [current_epoch + 2]
    and the schedule's value for it: the histories skip
    [current_epoch + 1].  The same holds of [KLWeightScheduler]. *)
Theorem schedulers_skip_failed_epoch :
  (forall (Env MetricFn DataGenerator Params Snapshot : Type)
          (model : Trainer Env MetricFn DataGenerator Params Snapshot)
          (self : LearningRateScheduler.t) (env : Env),
      let first := LearningRateScheduler.on_epoch_end (self, env) in
      let second := LearningRateScheduler.on_epoch_end (state first) in
      is_ok (outcome first) = false ->
      outcome second = Ok tt ->
      LearningRateScheduler.epochs (fst (state second))
      = LearningRateScheduler.epochs self
        ++ [LearningRateScheduler.current_epoch self + 2]
      /\ map Ok (LearningRateScheduler.learning_rate (fst (state second)))
         = map Ok (LearningRateScheduler.learning_rate self)
           ++ [LearningRateScheduler.fn self
                 (LearningRateScheduler.current_epoch self + 2)])
  /\ (forall (Env MetricFn DataGenerator Params Snapshot : Type)
             (model : Trainer Env MetricFn DataGenerator Params Snapshot)
             (self : KLWeightScheduler.t) (env : Env),
         let first := KLWeightScheduler.on_epoch_end (self, env) in
         let second := KLWeightScheduler.on_epoch_end (state first) in
         is_ok (outcome first) = false ->
         outcome second = Ok tt ->
         KLWeightScheduler.epochs (fst (state second))
         = KLWeightScheduler.epochs self
           ++ [KLWeightScheduler.current_epoch self + 2]
         /\ map Ok (KLWeightScheduler.kl_weights (fst (state second)))
            = map Ok (KLWeightScheduler.kl_weights self)
              ++ [KLWeightScheduler.fn self
                    (KLWeightScheduler.current_epoch self + 2)]).
Proof.
  split.
  - intros Env MetricFn DataGenerator Params Snapshot model self env.
    cbv zeta. intros Hfirst Hsecond.
    destruct (lrs_call_fields self env) as (Hf & Hce & Hcases).
    destruct Hcases as [[Hok _] | (_ & Hep & Hlr)];
      [rewrite Hok in Hfirst; discriminate Hfirst | ].
    destruct (state (LearningRateScheduler.on_epoch_end (self, env)))
      as [s1 env1].
    cbn [fst] in *.
    destruct (lrs_call_fields s1 env1) as (_ & _ & Hcases).
    destruct Hcases as [(_ & v & Hfn & Hep' & Hlr') | [Hraised _]];
      [ | rewrite Hsecond in Hraised; discriminate Hraised].
    rewrite Hep', Hlr', Hep, Hlr, Hce, map_app. cbn [map].
    rewrite <- Hfn, Hf, Hce.
    replace (LearningRateScheduler.current_epoch self + 1 + 1)
      with (LearningRateScheduler.current_epoch self + 2) by lia.
    split; reflexivity.
  - intros Env MetricFn DataGenerator Params Snapshot model self env.
    cbv zeta. intros Hfirst Hsecond.
    destruct (klw_call_fields self env) as (Hf & Hce & Hcases).
    destruct Hcases as [[Hok _] | (_ & Hep & Hlr)];
      [rewrite Hok in Hfirst; discriminate Hfirst | ].
    destruct (state (KLWeightScheduler.on_epoch_end (self, env)))
      as [s1 env1].
    cbn [fst] in *.
    destruct (klw_call_fields s1 env1) as (_ & _ & Hcases).
    destruct Hcases as [(_ & v & Hfn & Hep' & Hlr') | [Hraised _]];
      [ | rewrite Hsecond in Hraised; discriminate Hraised].
    rewrite Hep', Hlr', Hep, Hlr, Hce, map_app. cbn [map].
    rewrite <- Hfn, Hf, Hce.
    replace (KLWeightScheduler.current_epoch self + 1 + 1)
      with (KLWeightScheduler.current_epoch self + 2) by lia.
    split; reflexivity.
Qed.

Lemma schedulers_skip_failed_epoch_witness :
  let g : schedule :=
    fun e => if e =? 2 then Raise (Exception "no value")
             else Ok (Script.halving e) in
  let self :=
    LearningRateScheduler.Build g 1 (PyFloat (float_of_Z 8)) [1]
      [PyFloat (float_of_Z 8)] in
  let first := LearningRateScheduler.on_epoch_end (self, Script.world []) in
  let second := LearningRateScheduler.on_epoch_end (state first) in
  is_ok (outcome first) = false
  /\ outcome second = Ok tt
  /\ LearningRateScheduler.epochs (fst (state second)) = [1; 3]
  /\ LearningRateScheduler.learning_rate (fst (state second))
     = [PyFloat (float_of_Z 8); PyFloat (float_of_Z 4)].
Proof.
  cbv zeta.
  destruct (proj1 schedulers_skip_failed_epoch _ _ _ _ _ Script.trainer
              (LearningRateScheduler.Build
                 (fun e => if e =? 2 then Raise (Exception "no value")
                           else Ok (Script.halving e))
                 1 (PyFloat (float_of_Z 8)) [1] [PyFloat (float_of_Z 8)])
              (Script.world []) eq_refl eq_refl)
    as (Hep & _).
  split; [reflexivity | ].
  split; [reflexivity | ].
  split; [exact Hep | reflexivity].
Defined.

(** X9.  Whatever [n] calls of [on_epoch_end] a [LearningRateScheduler]
    from the constructor goes through, returning or raising:
    [current_epoch] is [n], the number of calls and not of recorded
    epochs; [epochs] and [learning_rate] have the same length; every
    recorded value is the schedule's value at the epoch recorded beside
    it; and the recorded epochs lie between 1 and [n] and increase
    strictly.  The same holds of [KLWeightScheduler]. *)
Theorem schedulers_keep_histories_parallel :
  (forall (Env MetricFn DataGenerator Params Snapshot : Type)
          (model : Trainer Env MetricFn DataGenerator Params Snapshot)
          (g : schedule) (self : LearningRateScheduler.t) (env : Env)
          (n : nat),
      LearningRateScheduler.init (Callable g) = Ok self ->
      let self' :=
        fst (attempts n LearningRateScheduler.on_epoch_end (self, env)) in
      LearningRateScheduler.current_epoch self' = Z.of_nat n
      /\ List.length (LearningRateScheduler.epochs self')
         = List.length (LearningRateScheduler.learning_rate self')
      /\ map Ok (LearningRateScheduler.learning_rate self')
         = map g (LearningRateScheduler.epochs self')
      /\ Forall (fun e => 1 <= e <= Z.of_nat n)
           (LearningRateScheduler.epochs self')
      /\ StronglySorted Z.lt (LearningRateScheduler.epochs self'))
  /\ (forall (Env MetricFn DataGenerator Params Snapshot : Type)
             (model : Trainer Env MetricFn DataGenerator Params Snapshot)
             (g : schedule) (self : KLWeightScheduler.t) (env : Env)
             (n : nat),
         KLWeightScheduler.init (Callable g) = Ok self ->
         let self' :=
           fst (attempts n KLWeightScheduler.on_epoch_end (self, env)) in
         KLWeightScheduler.current_epoch self' = Z.of_nat n
         /\ List.length (KLWeightScheduler.epochs self')
            = List.length (KLWeightScheduler.kl_weights self')
         /\ map Ok (KLWeightScheduler.kl_weights self')
            = map g (KLWeightScheduler.epochs self')
         /\ Forall (fun e => 1 <= e <= Z.of_nat n)
              (KLWeightScheduler.epochs self')
         /\ StronglySorted Z.lt (KLWeightScheduler.epochs self')).
Proof.
  split.
  - intros Env MetricFn DataGenerator Params Snapshot model g self env n
      Hinit.
    apply lrs_init_ok in Hinit. subst self. cbv zeta.
    destruct (lrs_attempts_keep n
                (LearningRateScheduler.Build g 0 (PyInt 0) [] []) env
                (low := 0))
      as (_ & Hce & Hlen & Hval & Hrange & Hsort);
      try (constructor; fail); try reflexivity.
    cbn in Hce, Hval. rewrite Hce in Hrange.
    repeat split; try assumption.
    eapply Forall_impl; [ | exact Hrange]. cbn. intros e He. lia.
  - intros Env MetricFn DataGenerator Params Snapshot model g self env n
      Hinit.
    apply klw_init_ok in Hinit. subst self. cbv zeta.
    destruct (klw_attempts_keep n
                (KLWeightScheduler.Build g 0 (PyInt 0) [] []) env (low := 0))
      as (_ & Hce & Hlen & Hval & Hrange & Hsort);
      try (constructor; fail); try reflexivity.
    cbn in Hce, Hval. rewrite Hce in Hrange.
    repeat split; try assumption.
    eapply Forall_impl; [ | exact Hrange]. cbn. intros e He. lia.
Qed.

Lemma schedulers_keep_histories_parallel_witness :
  let self :=
    LearningRateScheduler.Build Script.failing_at_3 0 (PyInt 0) [] [] in
  let self' :=
    fst (attempts 4 LearningRateScheduler.on_epoch_end
           (self, Script.world [])) in
  LearningRateScheduler.init (Callable Script.failing_at_3) = Ok self
  /\ LearningRateScheduler.current_epoch self' = 4
  /\ LearningRateScheduler.epochs self' = [1; 2]
  /\ map Ok (LearningRateScheduler.learning_rate self')
     = map Script.failing_at_3 (LearningRateScheduler.epochs self').
Proof.
  cbv zeta.
  destruct (proj1 schedulers_keep_histories_parallel _ _ _ _ _
              Script.trainer Script.failing_at_3 _ (Script.world []) 4%nat
              eq_refl)
    as (Hce & _ & Hval & _).
  split; [reflexivity | ].
  split; [exact Hce | ].
  split; [reflexivity | exact Hval].
Defined.

Lemma epochs_upto_add (e k : nat) :
  epochs_upto e ++ epochs_between (Z.of_nat e) k = epochs_upto (e + k).
Proof.
  unfold epochs_upto, epochs_between.
  rewrite seq_app, map_app. f_equal.
  generalize 1%nat as a.
  induction k as [ | k IH]; intros a; [reflexivity | ].
  cbn [seq map]. f_equal; [lia | ].
  rewrite (IH (S a)). reflexivity.
Qed.

Lemma learning_rates_set_map
    (MetricFn DataGenerator Params Snapshot : Type) (vs : list pyval) :
  learning_rates_set
    (map (fun v => @EvSetLearningRate MetricFn DataGenerator Params Snapshot
                     v (Ok tt)) vs)
  = vs.
Proof.
  induction vs as [ | v vs IH]; [reflexivity | cbn; f_equal; exact IH].
Qed.

Lemma kl_weights_set_map
    (MetricFn DataGenerator Params Snapshot : Type) (vs : list pyval) :
  kl_weights_set
    (map (fun v => @EvSetKLWeight MetricFn DataGenerator Params Snapshot
                     v (Ok tt)) vs)
  = vs.
Proof.
  induction vs as [ | v vs IH]; [reflexivity | cbn; f_equal; exact IH].
Qed.

(** [on_train_end] between two runs changes nothing. *)
Lemma calls_on_train_end_calls {E Self Env : Type}
    (m : M E (Self * Env) unit) (e k : nat) (s : Self * Env) :
  (calls e m ;; Callback.on_train_end ;; calls k m) s = calls (e + k) m s.
Proof.
  rewrite calls_add. unfold bind, Callback.on_train_end, ret.
  destruct (calls e m s) as [[[[] | x] s1] t1]; [ | reflexivity].
  destruct (calls k m s1) as [[r s2] t2]. reflexivity.
Qed.

(** X10.  [on_train_end], which the schedulers inherit from [Callback],
    resets nothing.  A [LearningRateScheduler] from the constructor that
    is used for a run of [e] epochs, [on_train_end], and then a second
    run of [k] epochs goes on counting: when the calls return, [epochs]
    is [1, ..., e+k], the values recorded and passed to the Trainer are
    [f(1), ..., f(e+k)], so that the second run uses
    [f(e+1), ..., f(e+k)] and not [f(1), ..., f(k)].  The same holds of
    [KLWeightScheduler]. *)
Theorem schedulers_go_on_counting :
  (forall (Env MetricFn DataGenerator Params Snapshot : Type)
          (model : Trainer Env MetricFn DataGenerator Params Snapshot)
          (f : Z -> pyval) (self : LearningRateScheduler.t) (env : Env)
          (e k : nat),
      LearningRateScheduler.init (Callable (pure_schedule f)) = Ok self ->
      let run :=
        (calls e LearningRateScheduler.on_epoch_end ;;
         Callback.on_train_end ;;
         calls k LearningRateScheduler.on_epoch_end) (self, env) in
      outcome run = Ok tt ->
      LearningRateScheduler.epochs (fst (state run)) = epochs_upto (e + k)
      /\ LearningRateScheduler.learning_rate (fst (state run))
         = map f (epochs_upto (e + k))
      /\ learning_rates_set (trace run)
         = map f (epochs_upto e) ++ map f (epochs_between (Z.of_nat e) k))
  /\ (forall (Env MetricFn DataGenerator Params Snapshot : Type)
             (model : Trainer Env MetricFn DataGenerator Params Snapshot)
             (f : Z -> pyval) (self : KLWeightScheduler.t) (env : Env)
             (e k : nat),
         KLWeightScheduler.init (Callable (pure_schedule f)) = Ok self ->
         let run :=
           (calls e KLWeightScheduler.on_epoch_end ;;
            Callback.on_train_end ;;
            calls k KLWeightScheduler.on_epoch_end) (self, env) in
         outcome run = Ok tt ->
         KLWeightScheduler.epochs (fst (state run)) = epochs_upto (e + k)
         /\ KLWeightScheduler.kl_weights (fst (state run))
            = map f (epochs_upto (e + k))
         /\ kl_weights_set (trace run)
            = map f (epochs_upto e) ++ map f (epochs_between (Z.of_nat e) k)).
Proof.
  split.
  - intros Env MetricFn DataGenerator Params Snapshot model f self env e k
      Hinit.
    apply lrs_init_ok in Hinit. subst self. cbv zeta.
    rewrite calls_on_train_end_calls.
    destruct (calls (e + k) LearningRateScheduler.on_epoch_end _)
      as [[r [s' env']] tr] eqn:Hrun.
    unfold outcome, state, trace. cbn [fst snd]. intros ->.
    destruct (lrs_run_returns _ _ _ Hrun)
      as (vs & Hvs & _ & _ & Hep & Hlr & Htr & _).
    cbn [LearningRateScheduler.fn LearningRateScheduler.current_epoch
         LearningRateScheduler.epochs LearningRateScheduler.learning_rate
         app] in *.
    rewrite epochs_between_zero in *.
    apply pure_schedule_values in Hvs. subst vs.
    rewrite Hep, Hlr, Htr, learning_rates_set_map, <- epochs_upto_add,
      map_app.
    repeat split.
  - intros Env MetricFn DataGenerator Params Snapshot model f self env e k
      Hinit.
    apply klw_init_ok in Hinit. subst self. cbv zeta.
    rewrite calls_on_train_end_calls.
    destruct (calls (e + k) KLWeightScheduler.on_epoch_end _)
      as [[r [s' env']] tr] eqn:Hrun.
    unfold outcome, state, trace. cbn [fst snd]. intros ->.
    destruct (klw_run_returns _ _ _ Hrun)
      as (vs & Hvs & _ & _ & Hep & Hlr & Htr & _).
    cbn [KLWeightScheduler.fn KLWeightScheduler.current_epoch
         KLWeightScheduler.epochs KLWeightScheduler.kl_weights app] in *.
    rewrite epochs_between_zero in *.
    apply pure_schedule_values in Hvs. subst vs.
    rewrite Hep, Hlr, Htr, kl_weights_set_map, <- epochs_upto_add, map_app.
    repeat split.
Qed.

Lemma schedulers_go_on_counting_witness :
  let self :=
    LearningRateScheduler.Build (pure_schedule Script.halving) 0 (PyInt 0)
      [] [] in
  let run :=
    (calls 2 LearningRateScheduler.on_epoch_end ;;
     Callback.on_train_end ;;
     calls 1 LearningRateScheduler.on_epoch_end) (self, Script.world []) in
  LearningRateScheduler.init (Callable (pure_schedule Script.halving))
  = Ok self
  /\ outcome run = Ok tt
  /\ LearningRateScheduler.epochs (fst (state run)) = [1; 2; 3]
  /\ learning_rates_set (trace run)
     = [Script.halving 1; Script.halving 2] ++ [Script.halving 3].
Proof.
  cbv zeta.
  destruct (proj1 schedulers_go_on_counting _ _ _ _ _ Script.trainer
              Script.halving _ (Script.world []) 2%nat 1%nat eq_refl
              eq_refl)
    as (Hep & _ & Hset).
  split; [reflexivity | ].
  split; [reflexivity | ].
  split; [exact Hep | exact Hset].
Defined.

(** ** MonitorMetric: what a run records, calls and prints *)

Lemma last_cons_default {A : Type} (a : A) (l : list A) (d : A) :
  last (a :: l) d = last l a.
Proof.
  assert (Hany : forall (l : list A) (a d d' : A),
             last (a :: l) d = last (a :: l) d').
  { clear. induction l as [ | b l IH]; intros a d d'; [reflexivity | ].
    change (last (b :: l) d = last (b :: l) d'). apply IH. }
  destruct l as [ | b l]; [reflexivity | ].
  change (last (b :: l) d = last (b :: l) a). apply Hany.
Qed.

Section MonitorMetricMore.
Context {Env Metric Data MetricFn DataGenerator Params Snapshot : Type}.
Context {model : Trainer Env MetricFn DataGenerator Params Snapshot}.
Context {resolver : Resolver Metric Data MetricFn DataGenerator}.

Import MonitorMetric.

Local Abbreviation event := (event MetricFn DataGenerator Params Snapshot).

Lemma mm_run_records (n : nat) :
  forall (self s' : t MetricFn DataGenerator) (env env' : Env)
         (tr : list event),
    calls n on_epoch_end (self, env) = (Ok tt, (s', env'), tr) ->
    metric_fn s' = metric_fn self
    /\ data s' = data self
    /\ verbose s' = verbose self
    /\ List.length (metrics_returned tr) = n
    /\ metrics s' = metrics self ++ metrics_returned tr
    /\ current_metric s' = last (metrics_returned tr) (current_metric self)
    /\ metric_calls tr = repeat (metric_fn self, data self) n
    /\ printed tr
       = if verbose self
         then lines (fn_name (metric_fn self))
                (epochs_between (current_epoch self) n) (metrics_returned tr)
         else [].
Proof.
  induction n as [ | n IH]; intros self s' env env' tr Hrun.
  - cbn in Hrun. injection Hrun as <- <- <-.
    cbn. rewrite app_nil_r. repeat split. destruct (verbose self); reflexivity.
  - cbn [calls] in Hrun. unfold bind in Hrun.
    destruct (metric (metric_fn self) (data self) env) as [[m | x] env1]
      eqn:Hcall.
    2:{ rewrite (mm_call_raises _ _ Hcall) in Hrun. discriminate Hrun. }
    rewrite (mm_call_returns _ _ Hcall) in Hrun.
    destruct (calls n on_epoch_end _) as [[r [s2 env2]] t2] eqn:Hrest.
    injection Hrun as -> -> -> <-.
    destruct (IH _ _ _ _ _ Hrest)
      as (Hf & Hd & Hv & Hlen & Hms & Hcm & Hcalls & Hprint).
    cbn [metric_fn data verbose current_metric current_epoch metrics] in *.
    set (out := EvMetric (metric_fn self) (data self) (Ok m)
                :: (if verbose self
                    then [EvPrint (current_epoch self + 1)
                            (fn_name (metric_fn self)) m]
                    else []) ++ t2).
    assert (Hret : metrics_returned out = m :: metrics_returned t2)
      by (unfold out; destruct (verbose self); reflexivity).
    assert (Hcalled : metric_calls out
                      = (metric_fn self, data self) :: metric_calls t2)
      by (unfold out; destruct (verbose self); reflexivity).
    assert (Hprinted : printed out
                       = (if verbose self
                          then [(current_epoch self + 1,
                                 fn_name (metric_fn self), m)]
                          else []) ++ printed t2)
      by (unfold out; destruct (verbose self); reflexivity).
    rewrite Hret, Hcalled, Hprinted, Hcalls, Hprint, Hms, Hcm,
      epochs_between_succ, last_cons_default, <- app_assoc.
    split; [exact Hf | ]. split; [exact Hd | ]. split; [exact Hv | ].
    split; [cbn; f_equal; exact Hlen | ].
    split; [reflexivity | ]. split; [reflexivity | ].
    split; [reflexivity | ].
    destruct (verbose self); reflexivity.
Qed.
End MonitorMetricMore.

(** X11.  A [MonitorMetric] records what the Trainer returns and nothing
    else.  After [n] calls of [on_epoch_end] that returned on an object
    from the constructor, [metrics] is the list of the values the
    Trainer's [metric] returned, in the order of the calls, and
    [current_metric] is the last of them; every one of the [n] calls of
    [metric] was made with the scoring function and the data generator
    the constructor stored, which are still in the object. *)
Theorem monitor_metric_records_the_trainer :
  forall (Env Metric Data MetricFn DataGenerator Params Snapshot : Type)
         (model : Trainer Env MetricFn DataGenerator Params Snapshot)
         (resolver : Resolver Metric Data MetricFn DataGenerator)
         (m : Metric) (x : Data) (y : option Data) (verbose : bool)
         (self : MonitorMetric.t MetricFn DataGenerator) (env : Env)
         (n : nat),
    MonitorMetric.init m x y verbose = Ok self ->
    let run := calls n MonitorMetric.on_epoch_end (self, env) in
    let self' := fst (state run) in
    outcome run = Ok tt ->
    MonitorMetric.metrics self' = metrics_returned (trace run)
    /\ MonitorMetric.current_metric self'
       = last (MonitorMetric.metrics self') nan
    /\ metric_calls (trace run)
       = repeat (MonitorMetric.metric_fn self, MonitorMetric.data self) n
    /\ get_metric_fn m = Ok (MonitorMetric.metric_fn self')
    /\ make_generator x y = Ok (MonitorMetric.data self').
Proof.
  intros Env Metric Data MetricFn DataGenerator Params Snapshot model resolver
    m x y verbose self env n Hinit.
  assert (Hself : exists f d,
             get_metric_fn m = Ok f /\ make_generator x y = Ok d
             /\ self = MonitorMetric.Build f d nan 0 [] [] verbose).
  { revert Hinit. unfold MonitorMetric.init.
    destruct (get_metric_fn m) as [f | e]; [ | discriminate].
    destruct (make_generator x y) as [d | e]; [ | discriminate].
    intros H. injection H as <-. exists f, d. repeat split. }
  destruct Hself as (f & d & Hf & Hd & ->). cbv zeta.
  destruct (calls n MonitorMetric.on_epoch_end _) as [[r [s' env']] tr]
    eqn:Hrun.
  unfold outcome, state, trace. cbn [fst snd]. intros ->.
  destruct (mm_run_records _ _ _ Hrun)
    as (Hf' & Hd' & _ & _ & Hms & Hcm & Hcalls & _).
  cbn [MonitorMetric.metric_fn MonitorMetric.data MonitorMetric.metrics
       MonitorMetric.current_metric app] in *.
  rewrite Hms, Hcm, Hcalls, Hf', Hd'. repeat split; assumption.
Qed.

Lemma monitor_metric_records_the_trainer_witness :
  let self := MonitorMetric.Build "mse" [1; 2] nan 0 [] [] true in
  let run := calls 2 MonitorMetric.on_epoch_end (self, Script.world [7; 6]) in
  MonitorMetric.init "mse" [1; 2] None true = Ok self
  /\ outcome run = Ok tt
  /\ MonitorMetric.metrics (fst (state run)) = metrics_returned (trace run)
  /\ MonitorMetric.metrics (fst (state run)) = [float_of_Z 7; float_of_Z 6]
  /\ MonitorMetric.current_metric (fst (state run)) = float_of_Z 6.
Proof.
  cbv zeta.
  destruct (monitor_metric_records_the_trainer Script.trainer Script.resolver
              "mse" [1; 2] None true (Script.world [7; 6]) 2 eq_refl eq_refl)
    as (Hms & _).
  split; [reflexivity | ].
  split; [reflexivity | ].
  split; [exact Hms | ].
  split; reflexivity.
Defined.

(** X12.  What a [MonitorMetric] prints.  After [n] calls of
    [on_epoch_end] that returned on an object from the constructor, a
    verbose monitor has printed one line for each call, in order, with
    the epoch recorded in [epochs], the name of the scoring function and
    the value recorded in [metrics]; a monitor that is not verbose has
    printed nothing. *)
Theorem monitor_metric_prints_its_history :
  forall (Env Metric Data MetricFn DataGenerator Params Snapshot : Type)
         (model : Trainer Env MetricFn DataGenerator Params Snapshot)
         (resolver : Resolver Metric Data MetricFn DataGenerator)
         (m : Metric) (x : Data) (y : option Data) (verbose : bool)
         (self : MonitorMetric.t MetricFn DataGenerator) (env : Env)
         (n : nat),
    MonitorMetric.init m x y verbose = Ok self ->
    let run := calls n MonitorMetric.on_epoch_end (self, env) in
    let self' := fst (state run) in
    outcome run = Ok tt ->
    printed (trace run)
    = if verbose
      then lines (fn_name (MonitorMetric.metric_fn self))
             (MonitorMetric.epochs self') (MonitorMetric.metrics self')
      else [].
Proof.
  intros Env Metric Data MetricFn DataGenerator Params Snapshot model resolver
    m x y verbose self env n Hinit.
  assert (Hself : exists f d,
             self = MonitorMetric.Build f d nan 0 [] [] verbose).
  { revert Hinit. unfold MonitorMetric.init.
    destruct (get_metric_fn m) as [f | e]; [ | discriminate].
    destruct (make_generator x y) as [d | e]; [ | discriminate].
    intros H. injection H as <-. exists f, d. reflexivity. }
  destruct Hself as (f & d & ->). cbv zeta.
  destruct (calls n MonitorMetric.on_epoch_end _) as [[r [s' env']] tr]
    eqn:Hrun.
  unfold outcome, state, trace. cbn [fst snd]. intros ->.
  destruct (mm_run_records _ _ _ Hrun)
    as (_ & _ & _ & _ & Hms & _ & _ & Hprint).
  destruct (mm_run_returns _ _ _ Hrun) as (_ & Hep & _).
  cbn [MonitorMetric.metric_fn MonitorMetric.verbose MonitorMetric.metrics
       MonitorMetric.epochs MonitorMetric.current_epoch app] in *.
  rewrite Hprint, Hms, Hep. reflexivity.
Qed.

Lemma monitor_metric_prints_its_history_witness :
  let self := MonitorMetric.Build "mse" [1; 2] nan 0 [] [] true in
  let run := calls 2 MonitorMetric.on_epoch_end (self, Script.world [7; 6]) in
  MonitorMetric.init "mse" [1; 2] None true = Ok self
  /\ outcome run = Ok tt
  /\ printed (trace run)
     = [(1, "mse", float_of_Z 7); (2, "mse", float_of_Z 6)].
Proof.
  cbv zeta.
  split; [reflexivity | ].
  split; [reflexivity | ].
  exact (monitor_metric_prints_its_history Script.trainer Script.resolver
           "mse" [1; 2] None true (Script.world [7; 6]) 2 eq_refl eq_refl).
Defined.

(** ** MonitorParameter: further properties *)

Section MonitorParameterMore.
Context {Env MetricFn DataGenerator Params Snapshot : Type}.
Context {model : Trainer Env MetricFn DataGenerator Params Snapshot}.

Import MonitorParameter.

Local Abbreviation event := (event MetricFn DataGenerator Params Snapshot).

Lemma mp_run_queries (n : nat) :
  forall (self s' : t Params Snapshot) (env env' : Env) (tr : list event),
    calls n on_epoch_end (self, env) = (Ok tt, (s', env'), tr) ->
    params s' = params self
    /\ posterior_mean_calls tr = repeat (params self) n
    /\ current_params s'
       = last (map Some (snapshots_returned tr)) (current_params self).
Proof.
  induction n as [ | n IH]; intros self s' env env' tr Hrun.
  - cbn in Hrun. injection Hrun as <- <- <-. repeat split.
  - cbn [calls] in Hrun. unfold bind in Hrun.
    destruct (posterior_mean (params self) env) as [[v | x] env1] eqn:Hcall.
    2:{ rewrite (mp_call_raises _ _ Hcall) in Hrun. discriminate Hrun. }
    rewrite (mp_call_returns _ _ Hcall) in Hrun.
    destruct (calls n on_epoch_end _) as [[r [s2 env2]] t2] eqn:Hrest.
    injection Hrun as -> -> -> <-.
    destruct (IH _ _ _ _ _ Hrest) as (Hp & Hcalls & Hcur).
    cbn [params current_params] in *.
    change (posterior_mean_calls
              (EvPosteriorMean (params self) (Ok v) :: t2))
      with (params self :: posterior_mean_calls t2).
    change (snapshots_returned
              (EvPosteriorMean (params self) (Ok v) :: t2))
      with (v :: snapshots_returned t2).
    cbn [map]. rewrite last_cons_default, Hcalls, Hcur, Hp.
    repeat split.
Qed.
End MonitorParameterMore.

(** X13.  [MonitorParameter.on_epoch_end] is atomic on failure: when the
    Trainer's [posterior_mean] raises, the call raises the same exception
    and the object, with its histories and its epoch counter, is exactly
    as before the call. *)
Theorem monitor_parameter_atomic_on_failure :
  forall (Env MetricFn DataGenerator Params Snapshot : Type)
         (model : Trainer Env MetricFn DataGenerator Params Snapshot)
         (self : MonitorParameter.t Params Snapshot) (env : Env) (x : exn),
    fst (posterior_mean (MonitorParameter.params self) env) = Raise x ->
    let run := MonitorParameter.on_epoch_end (self, env) in
    outcome run = Raise x /\ fst (state run) = self.
Proof.
  intros Env MetricFn DataGenerator Params Snapshot model self env x Hraise.
  destruct (posterior_mean (MonitorParameter.params self) env) as [r env1]
    eqn:Hcall.
  cbn [fst] in Hraise. subst r. cbv zeta.
  rewrite (mp_call_raises _ _ Hcall). split; reflexivity.
Qed.

Lemma monitor_parameter_atomic_on_failure_witness :
  let self : MonitorParameter.t (list string) (list (string * float)) :=
    MonitorParameter.Build (Some ["w"]) (Some [("w", float_of_Z 3)]) 1
      [Some [("w", float_of_Z 3)]] [1] in
  let env := Script.Build [float_of_Z 2] false in
  let run := MonitorParameter.on_epoch_end (self, env) in
  fst (posterior_mean (MonitorParameter.params self) env)
  = Raise (Exception "trainer failed")
  /\ outcome run = Raise (Exception "trainer failed")
  /\ fst (state run) = self.
Proof.
  cbv zeta. split; [reflexivity | ].
  exact (monitor_parameter_atomic_on_failure Script.trainer
           (MonitorParameter.Build (Some ["w"]) (Some [("w", float_of_Z 3)])
              1 [Some [("w", float_of_Z 3)]] [1])
           (Script.Build [float_of_Z 2] false)
           (x := Exception "trainer failed") eq_refl).
Defined.

(** X14.  A [MonitorParameter] always asks for the parameters it was
    constructed with.  After [n] calls of [on_epoch_end] that returned,
    every one of the [n] calls of the Trainer's [posterior_mean] was made
    with the constructor's [params] ([None] when none were given), which
    is still in the object, and [current_params] is the last entry of
    [parameter_values]. *)
Theorem monitor_parameter_asks_for_its_params :
  forall (Env Data MetricFn DataGenerator Params Snapshot : Type)
         (model : Trainer Env MetricFn DataGenerator Params Snapshot)
         (x : Data) (y : option Data) (params : option Params) (env : Env)
         (n : nat),
    let self : MonitorParameter.t Params Snapshot :=
      MonitorParameter.init x y params in
    let run := calls n MonitorParameter.on_epoch_end (self, env) in
    outcome run = Ok tt ->
    posterior_mean_calls (trace run) = repeat params n
    /\ MonitorParameter.params (fst (state run)) = params
    /\ MonitorParameter.current_params (fst (state run))
       = last (MonitorParameter.parameter_values (fst (state run))) None.
Proof.
  intros Env Data MetricFn DataGenerator Params Snapshot model x y params env
    n.
  cbv zeta.
  destruct (calls n MonitorParameter.on_epoch_end _) as [[r [s' env']] tr]
    eqn:Hrun.
  unfold outcome, state, trace. cbn [fst snd]. intros ->.
  destruct (mp_run_queries _ _ _ Hrun) as (Hp & Hcalls & Hcur).
  destruct (mp_run_returns _ _ _ Hrun) as (Hpv & _).
  cbn [MonitorParameter.init MonitorParameter.params
       MonitorParameter.current_params MonitorParameter.parameter_values
       app] in *.
  rewrite Hp, Hcalls, Hcur, Hpv. repeat split.
Qed.

Lemma monitor_parameter_asks_for_its_params_witness :
  let self : MonitorParameter.t (list string) (list (string * float)) :=
    MonitorParameter.init [1; 2] None (Some ["w"]) in
  let run :=
    calls 2 MonitorParameter.on_epoch_end (self, Script.world [3; 2]) in
  outcome run = Ok tt
  /\ posterior_mean_calls (trace run) = [Some ["w"]; Some ["w"]]
  /\ MonitorParameter.current_params (fst (state run))
     = Some [("w", float_of_Z 2)].
Proof.
  cbv zeta.
  destruct (monitor_parameter_asks_for_its_params Script.trainer
              [1; 2] None (Some ["w"]) (Script.world [3; 2]) 2 eq_refl)
    as (Hcalls & _).
  split; [reflexivity | ].
  split; [exact Hcalls | reflexivity].
Defined.

(** ** The constructors: what they accept *)

(** X15.  The constructors accept exactly the arguments they do not
    reject.  [LearningRateScheduler(fn)] and [KLWeightScheduler(fn)]
    return an object exactly when [fn] is callable and [fn(1)] returns a
    float; the object keeps [fn], starts at epoch 0 with empty histories,
    and does not keep the value of the probe: its current value is the
    int 0.  [EarlyStopping(metric_fn, patience)] returns an object exactly
    when [metric_fn] is callable and [patience] is an int, or a bool,
    that is not negative; the object starts with [best] at positive
    infinity and [count] at 0. *)
Theorem constructors_accept :
  (forall (a : pyarg schedule) (self : LearningRateScheduler.t),
      LearningRateScheduler.init a = Ok self
      <-> exists (g : schedule) (x : float),
            a = Callable g /\ g 1 = Ok (PyFloat x)
            /\ self = LearningRateScheduler.Build g 0 (PyInt 0) [] [])
  /\ (forall (a : pyarg schedule) (self : KLWeightScheduler.t),
         KLWeightScheduler.init a = Ok self
         <-> exists (g : schedule) (x : float),
               a = Callable g /\ g 1 = Ok (PyFloat x)
               /\ self = KLWeightScheduler.Build g 0 (PyInt 0) [] [])
  /\ (forall (Env : Type) (a : pyarg (EarlyStopping.accessor Env))
             (p : pyval) (self : EarlyStopping.t Env),
         EarlyStopping.init a p = Ok self
         <-> exists (f : EarlyStopping.accessor Env) (z : Z),
               a = Callable f /\ int_value p = Some z /\ 0 <= z
               /\ self = EarlyStopping.Build f z inf 0).
Proof.
  split; [ | split].
  - intros [g | v] self; split.
    + intros Hinit. pose proof (lrs_init_ok _ Hinit) as ->.
      revert Hinit. unfold LearningRateScheduler.init.
      destruct (g 1) as [[ | b | z | x | s] | e] eqn:Hprobe; cbn;
        try discriminate.
      intros _. exists g, x. repeat split. exact Hprobe.
    + intros (g' & x & Ha & Hprobe & ->). injection Ha as <-.
      unfold LearningRateScheduler.init. rewrite Hprobe. reflexivity.
    + discriminate.
    + intros (g' & x & Ha & _). discriminate Ha.
  - intros [g | v] self; split.
    + intros Hinit. pose proof (klw_init_ok _ Hinit) as ->.
      revert Hinit. unfold KLWeightScheduler.init.
      destruct (g 1) as [[ | b | z | x | s] | e] eqn:Hprobe; cbn;
        try discriminate.
      intros _. exists g, x. repeat split. exact Hprobe.
    + intros (g' & x & Ha & Hprobe & ->). injection Ha as <-.
      unfold KLWeightScheduler.init. rewrite Hprobe. reflexivity.
    + discriminate.
    + intros (g' & x & Ha & _). discriminate Ha.
  - intros Env [f | v] p self; split.
    + intros Hinit.
      destruct (early_stopping_init_ok _ _ Hinit) as (z & Hz & Hpos & ->).
      exists f, z. repeat split; assumption.
    + intros (f' & z & Ha & Hz & Hpos & ->). injection Ha as <-.
      unfold EarlyStopping.init.
      destruct p; try discriminate Hz; cbn in *; injection Hz as ->;
        apply Z.ltb_ge in Hpos; rewrite Hpos; reflexivity.
    + unfold EarlyStopping.init.
      destruct (isinstance_int p); cbn; [ | discriminate].
      destruct (int_value p) as [z | ]; [ | discriminate].
      destruct (z <? 0); discriminate.
    + intros (f' & z & Ha & _). discriminate Ha.
Qed.

Lemma constructors_accept_witness :
  EarlyStopping.init (Callable Script.next_value) (PyBool true)
  = Ok (Script.stopper 1)
  /\ LearningRateScheduler.init (Callable (pure_schedule Script.halving))
     = Ok (LearningRateScheduler.Build (pure_schedule Script.halving) 0
             (PyInt 0) [] []).
Proof.
  destruct constructors_accept as (Hlrs & _ & Hes).
  split.
  - apply Hes. exists Script.next_value, 1.
    repeat split. discriminate.
  - apply Hlrs. exists (pure_schedule Script.halving), (float_of_Z 8).
    repeat split.
Defined.

(** ** EarlyStopping on a MonitorMetric *)

Section WiringFacts.
Context {Env Metric Data MetricFn DataGenerator Params Snapshot : Type}.
Context {model : Trainer Env MetricFn DataGenerator Params Snapshot}.
Context {resolver : Resolver Metric Data MetricFn DataGenerator}.

Import Wiring.

Local Abbreviation event := (event MetricFn DataGenerator Params Snapshot).
Local Abbreviation monitor := (MonitorMetric.t MetricFn DataGenerator).
Local Abbreviation stopper :=
  (EarlyStopping.t (@world Env MetricFn DataGenerator)).

(** The stopper's call, by cases, when its accessor reads the monitor. *)
Lemma stopping_on_epoch_end_reads (es : stopper) (mm : monitor) (env : Env) :
  EarlyStopping.metric_fn es = current_metric_of ->
  let v := MonitorMetric.current_metric mm in
  let run := stopping_on_epoch_end (es, ((mm, env) : world)) in
  accessed (trace run) = [Ok v]
  /\ snd (state run)
     = (mm, if float_lt v (EarlyStopping.best es) then env
            else if EarlyStopping.count es + 1 >? EarlyStopping.patience es
                 then snd (stop_training env) else env)
  /\ outcome run
     = (if float_lt v (EarlyStopping.best es) then Ok tt
        else if EarlyStopping.count es + 1 >? EarlyStopping.patience es
             then fst (stop_training env) else Ok tt)
  /\ EarlyStopping.metric_fn (fst (state run)) = current_metric_of
  /\ EarlyStopping.patience (fst (state run)) = EarlyStopping.patience es
  /\ EarlyStopping.best (fst (state run))
     = (if float_lt v (EarlyStopping.best es) then v
        else EarlyStopping.best es)
  /\ EarlyStopping.count (fst (state run))
     = (if float_lt v (EarlyStopping.best es) then 0
        else EarlyStopping.count es + 1)
  /\ signaled (trace run)
     = negb (float_lt v (EarlyStopping.best es))
       && (EarlyStopping.count es + 1 >? EarlyStopping.patience es).
Proof.
  intros Hwired. cbv zeta. unfold stopping_on_epoch_end.
  assert (Hacc : EarlyStopping.metric_fn es (mm, env)
                 = (Ok (MonitorMetric.current_metric mm), (mm, env)))
    by (rewrite Hwired; reflexivity).
  destruct (float_lt (MonitorMetric.current_metric mm)
              (EarlyStopping.best es)) eqn:Hlt.
  { rewrite (on_epoch_end_improves (model := model_beside) _ _ Hacc Hlt).
    cbn. rewrite Hwired. repeat split. }
  destruct (EarlyStopping.count es + 1 >? EarlyStopping.patience es)
    eqn:Hgt.
  - destruct (stop_training env) as [r env2] eqn:Hcall.
    assert (Hbeside : stop_training (Trainer := model_beside) (mm, env)
                      = (r, (mm, env2)))
      by (cbn; unfold beside; cbn; rewrite Hcall; reflexivity).
    rewrite (on_epoch_end_stops (model := model_beside) _ _ Hacc Hlt Hgt
               Hbeside).
    cbn. rewrite Hwired. repeat split.
  - rewrite (on_epoch_end_tolerates (model := model_beside) _ _ Hacc Hlt Hgt).
    cbn. rewrite Hwired. repeat split.
Qed.

(** The monitor's call neither reads the accessor nor signals stop, and
    leaves the stopper alone. *)
Lemma monitor_on_epoch_end_quiet (es : stopper) (mm : monitor) (env : Env) :
  let run := monitor_on_epoch_end (es, ((mm, env) : world)) in
  accessed (trace run) = []
  /\ signaled (trace run) = false
  /\ fst (state run) = es.
Proof.
  cbv zeta. unfold monitor_on_epoch_end. cbn [fst snd].
  destruct (metric (MonitorMetric.metric_fn mm) (MonitorMetric.data mm) env)
    as [[m | x] env1] eqn:Hcall.
  - rewrite (mm_call_returns _ _ Hcall).
    destruct (MonitorMetric.verbose mm); repeat split.
  - rewrite (mm_call_raises _ _ Hcall). repeat split.
Qed.

(** The end of an epoch in which the monitor's call returns. *)
Lemma epoch_end_returns (es : stopper) (mm : monitor) (env env1 : Env)
    (m : float) :
  metric (MonitorMetric.metric_fn mm) (MonitorMetric.data mm) env
  = (Ok m, env1) ->
  epoch_end (es, ((mm, env) : world))
  = match
      stopping_on_epoch_end
        (es,
         ((MonitorMetric.Build (MonitorMetric.metric_fn mm)
             (MonitorMetric.data mm) m (MonitorMetric.current_epoch mm + 1)
             (MonitorMetric.metrics mm ++ [m])
             (MonitorMetric.epochs mm ++ [MonitorMetric.current_epoch mm + 1])
             (MonitorMetric.verbose mm), env1) : world))
    with
    | (r, s2, t2) =>
        (r, s2,
         (EvMetric (MonitorMetric.metric_fn mm) (MonitorMetric.data mm) (Ok m)
          :: (if MonitorMetric.verbose mm
              then [EvPrint (MonitorMetric.current_epoch mm + 1)
                      (fn_name (MonitorMetric.metric_fn mm)) m]
              else [])) ++ t2)
    end.
Proof.
  intros Hcall. unfold epoch_end, bind, monitor_on_epoch_end. cbn [fst snd].
  rewrite (mm_call_returns _ _ Hcall).
  destruct (stopping_on_epoch_end _) as [[r s2] t2]. reflexivity.
Qed.
End WiringFacts.

(** X16.  In the wiring of the docstring of [EarlyStopping], with the
    accessor [lambda: monitor_mae.current_metric] and the monitor's
    [on_epoch_end] called before the stopper's, the stopper reads the
    value the Trainer's [metric] returned in this very epoch: that value
    is compared with [best], replaces it when strictly below, and
    otherwise adds to [count] and, when [count] exceeds [patience], makes
    the stopper call [stop_training]. *)
Theorem stopper_after_monitor_reads_the_new_metric :
  forall (Env Metric Data MetricFn DataGenerator Params Snapshot : Type)
         (model : Trainer Env MetricFn DataGenerator Params Snapshot)
         (resolver : Resolver Metric Data MetricFn DataGenerator)
         (es : EarlyStopping.t (@Wiring.world Env MetricFn DataGenerator))
         (mm : MonitorMetric.t MetricFn DataGenerator) (env env1 : Env)
         (m : float),
    EarlyStopping.metric_fn es = Wiring.current_metric_of ->
    metric (MonitorMetric.metric_fn mm) (MonitorMetric.data mm) env
    = (Ok m, env1) ->
    let run := Wiring.epoch_end (es, ((mm, env) : Wiring.world)) in
    accessed (trace run) = [Ok m]
    /\ MonitorMetric.current_metric (fst (snd (state run))) = m
    /\ EarlyStopping.best (fst (state run))
       = (if float_lt m (EarlyStopping.best es) then m
          else EarlyStopping.best es)
    /\ EarlyStopping.count (fst (state run))
       = (if float_lt m (EarlyStopping.best es) then 0
          else EarlyStopping.count es + 1)
    /\ signaled (trace run)
       = negb (float_lt m (EarlyStopping.best es))
         && (EarlyStopping.count es + 1 >? EarlyStopping.patience es).
Proof.
  intros Env Metric Data MetricFn DataGenerator Params Snapshot model resolver
    es mm env env1 m Hwired Hcall.
  cbv zeta. rewrite (epoch_end_returns es _ _ Hcall).
  pose proof (stopping_on_epoch_end_reads es
                (MonitorMetric.Build (MonitorMetric.metric_fn mm)
                   (MonitorMetric.data mm) m
                   (MonitorMetric.current_epoch mm + 1)
                   (MonitorMetric.metrics mm ++ [m])
                   (MonitorMetric.epochs mm
                    ++ [MonitorMetric.current_epoch mm + 1])
                   (MonitorMetric.verbose mm)) env1 Hwired) as Hstop.
  cbv zeta in Hstop. cbn [MonitorMetric.current_metric] in Hstop.
  revert Hstop.
  destruct (Wiring.stopping_on_epoch_end _) as [[r [es' w']] t2].
  unfold trace, state, accessed, signaled. cbn [fst snd].
  intros (Hacc & -> & _ & _ & _ & Hbest & Hcount & Hsig).
  rewrite flat_map_app, existsb_app, Hacc, Hsig, Hbest, Hcount.
  destruct (MonitorMetric.verbose mm); repeat split.
Qed.

Lemma stopper_after_monitor_reads_the_new_metric_witness :
  let es : EarlyStopping.t Wiring.world :=
    EarlyStopping.Build Wiring.current_metric_of 0 inf 0 in
  let mm := MonitorMetric.Build "mse" [1; 2] nan 0 [] [] false in
  let run :=
    Wiring.epoch_end (es, ((mm, Script.world [7]) : Wiring.world)) in
  metric (MonitorMetric.metric_fn mm) (MonitorMetric.data mm)
    (Script.world [7])
  = (Ok (float_of_Z 7), Script.world [])
  /\ accessed (trace run) = [Ok (float_of_Z 7)]
  /\ EarlyStopping.best (fst (state run)) = float_of_Z 7
  /\ signaled (trace run) = false.
Proof.
  cbv zeta.
  destruct (stopper_after_monitor_reads_the_new_metric Script.trainer
              Script.resolver
              (EarlyStopping.Build Wiring.current_metric_of 0 inf 0)
              (MonitorMetric.Build "mse" [1; 2] nan 0 [] [] false)
              (Script.world [7]) (env1 := Script.world [])
              (m := float_of_Z 7) eq_refl eq_refl)
    as (Hacc & _ & Hbest & _ & Hsig).
  split; [reflexivity | ].
  split; [exact Hacc | ].
  split; [exact Hbest | exact Hsig].
Defined.

(** X17.  With the two callbacks in the other order, the stopper reads
    the monitor before the monitor has computed anything.  For a monitor
    and a stopper fresh from their constructors, the first epoch makes the
    stopper read NaN, whatever the Trainer's [metric] would return: [best]
    stays at positive infinity, [count] becomes 1, and the stopper calls
    [stop_training] exactly when [patience] is 0. *)
Theorem stopper_before_monitor_reads_nan :
  forall (Env Metric Data MetricFn DataGenerator Params Snapshot : Type)
         (model : Trainer Env MetricFn DataGenerator Params Snapshot)
         (resolver : Resolver Metric Data MetricFn DataGenerator)
         (m : Metric) (x : Data) (y : option Data) (verbose : bool)
         (mm : MonitorMetric.t MetricFn DataGenerator) (p : pyval)
         (es : EarlyStopping.t (@Wiring.world Env MetricFn DataGenerator))
         (env : Env),
    MonitorMetric.init m x y verbose = Ok mm ->
    EarlyStopping.init (Callable Wiring.current_metric_of) p = Ok es ->
    let run := Wiring.epoch_end_reversed (es, ((mm, env) : Wiring.world)) in
    accessed (trace run) = [Ok nan]
    /\ EarlyStopping.best (fst (state run)) = inf
    /\ EarlyStopping.count (fst (state run)) = 1
    /\ signaled (trace run) = (EarlyStopping.patience es =? 0).
Proof.
  intros Env Metric Data MetricFn DataGenerator Params Snapshot model resolver
    m x y verbose mm p es env Hmm Hes.
  assert (Hnan : MonitorMetric.current_metric mm = nan).
  { revert Hmm. unfold MonitorMetric.init.
    destruct (get_metric_fn m) as [f | e]; [ | discriminate].
    destruct (make_generator x y) as [d | e]; [ | discriminate].
    intros H. injection H as <-. reflexivity. }
  destruct (early_stopping_init_ok _ _ Hes) as (z & _ & Hpos & ->).
  cbv zeta. unfold Wiring.epoch_end_reversed, bind.
  destruct (stopping_on_epoch_end_reads
              (EarlyStopping.Build Wiring.current_metric_of z inf 0) mm env
              eq_refl)
    as (Hacc & Hworld & _ & _ & _ & Hbest & Hcount & Hsig).
  rewrite Hnan in Hacc, Hbest, Hcount, Hsig.
  cbn [EarlyStopping.best EarlyStopping.count EarlyStopping.patience] in *.
  change (float_lt nan inf) with false in *. cbn [negb andb] in *.
  assert (Hzero : (0 + 1 >? z) = (z =? 0)).
  { destruct (Z.eqb_spec z 0) as [-> | Hne]; [reflexivity | ].
    destruct (0 + 1 >? z) eqn:Hgt; [ | reflexivity].
    apply Z.gtb_lt in Hgt. lia. }
  rewrite Hzero in Hsig.
  destruct (Wiring.stopping_on_epoch_end _) as [[r [es' w']] t1].
  unfold trace, state in *. cbn [fst snd] in *.
  destruct r as [[] | e]; [ | repeat split; assumption].
  destruct (monitor_on_epoch_end_quiet es' (fst w') (snd w'))
    as (Hquiet & Hsilent & Hsame).
  destruct w' as [mm' env'].
  cbn [fst snd] in *.
  destruct (Wiring.monitor_on_epoch_end (es', ((mm', env') : Wiring.world)))
    as [[r2 [es2 w2]] t2].
  unfold trace, state in *. cbn [fst snd] in *. subst es2.
  unfold accessed, signaled in *.
  rewrite flat_map_app, existsb_app, Hacc, Hquiet, Hsig, Hsilent, orb_false_r.
  repeat split; assumption.
Qed.

Lemma stopper_before_monitor_reads_nan_witness :
  let es : EarlyStopping.t Wiring.world :=
    EarlyStopping.Build Wiring.current_metric_of 0 inf 0 in
  let mm := MonitorMetric.Build "mse" [1; 2] nan 0 [] [] false in
  let run :=
    Wiring.epoch_end_reversed (es, ((mm, Script.world [7]) : Wiring.world)) in
  MonitorMetric.init "mse" [1; 2] None false = Ok mm
  /\ EarlyStopping.init (Callable Wiring.current_metric_of) (PyInt 0) = Ok es
  /\ accessed (trace run) = [Ok nan]
  /\ signaled (trace run) = true.
Proof.
  cbv zeta.
  destruct (stopper_before_monitor_reads_nan Script.trainer Script.resolver
              "mse" [1; 2] None false (PyInt 0) (Script.world [7])
              eq_refl eq_refl)
    as (Hacc & _ & _ & Hsig).
  split; [reflexivity | ].
  split; [reflexivity | ].
  split; [exact Hacc | exact Hsig].
Defined.
